(** * Heartbeat monitor: session aggregation and broadcast hub

    A shallow embedding of [SessionManager] and [ConnectionManager] of
    [src/main.py], and the properties of the session engine proved on it.

    Conventions of the embedding:
    - Python [int] is [Z]; a Python [float] is the rational [Q] it stands
      for.  [statistics.mean] is taken as the exact mean: the conversion of
      its result to the nearest double, and the [OverflowError] of that
      conversion on integers beyond the range of doubles, are not modelled;
    - [datetime] values are [Z] microseconds since the epoch, and every call
      of [datetime.utcnow()] is an explicit clock-reading argument;
    - the dict [active_sessions] is a [gmap string session];
    - [deque(maxlen=n)] and Python lists are Rocq lists, oldest entry first;
    - functions that can raise live in the error monad [py];
    - [json.dumps] of the waveform trace is kept as the trace itself. *)

From Stdlib Require Import ZArith QArith Qround Lia Lqa.
From stdpp Require Import gmap strings list.

(** ** Exceptions *)

Inductive exn : Type :=
  | KeyError
  | ValueError
  | StatisticsError
  | RuntimeError
  | SendFailed.

Inductive py (A : Type) : Type :=
  | Ok (a : A)
  | Raise (e : exn).
Arguments Ok {A} a.
Arguments Raise {A} e.

Definition py_bind {A B : Type} (f : A → py B) (m : py A) : py B :=
  match m with
  | Ok a => f a
  | Raise e => Raise e
  end.

#[global] Instance py_mret : MRet py := λ A a, Ok a.
#[global] Instance py_mbind : MBind py := λ A B f m, py_bind f m.

(** ** Numbers *)

(** [x > 0] on floats. *)
Definition Qpositive (x : Q) : bool :=
  match (0 ?= x)%Q with Lt => true | _ => false end.

(** Rounding to the nearest integer, ties to the even neighbour. *)
Definition round_half_even (x : Q) : Z :=
  let f := Qfloor x in
  match (x - inject_Z f ?= 1 # 2)%Q with
  | Lt => f
  | Gt => (f + 1)%Z
  | Eq => if Z.even f then f else (f + 1)%Z
  end.

(** [round(x, ndigits)] for a non-negative number of digits. *)
Definition py_round (x : Q) (ndigits : nat) : Q :=
  let scale := inject_Z (10 ^ Z.of_nat ndigits) in
  (inject_Z (round_half_even (x * scale)) / scale)%Q.

Definition Qsum (l : list Q) : Q := foldr Qplus 0%Q l.

(** [statistics.mean]: raises [StatisticsError] on an empty sequence.  The
    mean is kept exact (see the conventions above). *)
Definition statistics_mean (l : list Q) : py Q :=
  match l with
  | [] => Raise StatisticsError
  | _ => Ok (Qsum l / inject_Z (Z.of_nat (length l)))%Q
  end.

(** [min] and [max] of a sequence: the first extremal element; [ValueError]
    on an empty sequence. *)
Definition py_min (l : list Q) : py Q :=
  match l with
  | [] => Raise ValueError
  | x :: l' =>
      Ok (fold_left (λ acc y, if Qlt_le_dec y acc then y else acc) l' x)
  end.

Definition py_max (l : list Q) : py Q :=
  match l with
  | [] => Raise ValueError
  | x :: l' =>
      Ok (fold_left (λ acc y, if Qlt_le_dec acc y then y else acc) l' x)
  end.

(** [timedelta.seconds] of the difference [later - earlier]: a normalised
    timedelta holds days, seconds in [0, 86400) and microseconds, and
    [.seconds] is the middle component only. *)
Definition timedelta_seconds (later earlier : Z) : Z :=
  (((later - earlier) `div` 1000000) `mod` 86400)%Z.

(** ** Bounded sequences *)

(** [deque.append] on a [deque(maxlen=maxlen)]: the new element goes to the
    right end and, when the bound is exceeded, the left end is dropped. *)
Definition deque_append {A : Type} (maxlen : nat) (x : A) (q : list A) : list A :=
  let q' := q ++ [x] in
  if decide (maxlen < length q') then drop 1 q' else q'.

(** ** Sessions *)

Record sample : Type := {
  beat_number : Z;
  sample_bpm : Q;
  sample_ir : Z;
  sample_ac : Z;
  timestamp : Z
}.

Record session : Type := {
  start_time : Z;
  bpm_values : list Q;
  ir_values : list Z;
  beat_count : Z;
  waveform_samples : list sample
}.

Record session_info : Type := {
  active : bool;
  duration : Z;
  beats : Z;
  info_avg_bpm : Q;
  info_min_bpm : option Q;
  info_max_bpm : option Q
}.

Record summary : Type := {
  device_id : string;
  session_start : Z;
  session_end : Z;
  duration_seconds : Z;
  total_beats : Z;
  avg_bpm : Q;
  min_bpm : Q;
  max_bpm : Q;
  avg_ir_value : Q;
  signal_quality : Q;
  waveform_sample : list sample
}.

(** [self.active_sessions[key]]: [KeyError] when the key is missing. *)
Definition getitem (m : gmap string session) (key : string) : py session :=
  match m !! key with
  | Some s => Ok s
  | None => Raise KeyError
  end.

Module SessionManager.

(** [start_session(device_id)], the clock reading [now] being the value of
    [datetime.utcnow()].  Returns the new registry and the new session. *)
Definition start_session (now : Z) (dev : string) (m : gmap string session)
  : gmap string session * session :=
  let s := {| start_time := now;
              bpm_values := [];
              ir_values := [];
              beat_count := 0;
              waveform_samples := [] |} in
  (<[dev := s]> m, s).

(** [add_beat(device_id, bpm, ir, ac)].  [now_start] is the clock reading
    of an implicit [start_session], [now_sample] the one of the waveform
    timestamp. *)
Definition add_beat (now_start now_sample : Z) (dev : string)
    (bpm : Q) (ir ac : Z) (m : gmap string session)
  : py (gmap string session) :=
  let m1 := if decide (m !! dev = None)
            then (start_session now_start dev m).1 else m in
  session ← getitem m1 dev;
  let bpms := if Qpositive bpm
              then deque_append 1000 bpm (bpm_values session)
              else bpm_values session in
  let irs := deque_append 1000 ir (ir_values session) in
  let count := (beat_count session + 1)%Z in
  let samples :=
    if decide ((count `mod` 10)%Z = 0%Z) then
      let appended := waveform_samples session ++
        [{| beat_number := count;
            sample_bpm := py_round bpm 2;
            sample_ir := ir;
            sample_ac := ac;
            timestamp := now_sample |}] in
      if decide (500 < length appended) then drop 1 appended else appended
    else waveform_samples session in
  Ok (<[dev := {| start_time := start_time session;
                  bpm_values := bpms;
                  ir_values := irs;
                  beat_count := count;
                  waveform_samples := samples |}]> m1).

(** [get_session_info(device_id)]: [None] for an unknown device. *)
Definition get_session_info (now : Z) (dev : string) (m : gmap string session)
  : py (option session_info) :=
  if decide (m !! dev = None) then Ok None
  else
    session ← getitem m dev;
    let bpm_list := bpm_values session in
    match bpm_list with
    | [] =>
        Ok (Some {| active := true;
                    duration := timedelta_seconds now (start_time session);
                    beats := beat_count session;
                    info_avg_bpm := 0;
                    info_min_bpm := None;
                    info_max_bpm := None |})
    | _ =>
        mean ← statistics_mean bpm_list;
        lo ← py_min bpm_list;
        hi ← py_max bpm_list;
        Ok (Some {| active := true;
                    duration := timedelta_seconds now (start_time session);
                    beats := beat_count session;
                    info_avg_bpm := py_round mean 1;
                    info_min_bpm := Some (py_round lo 1);
                    info_max_bpm := Some (py_round hi 1) |})
    end.

(** [end_session(device_id)].  [now] is the clock reading used for the
    duration, [now_end] the later one stored as [session_end].  Returns
    the registry afterwards and the summary, [None] standing for "nothing
    to save". *)
Definition end_session (now now_end : Z) (dev : string)
    (m : gmap string session)
  : py (gmap string session * option summary) :=
  if decide (m !! dev = None) then Ok (m, None)
  else
    session ← getitem m dev;
    let bpm_list := bpm_values session in
    let ir_list := ir_values session in
    if decide (bpm_list = [] ∨ beat_count session = 0%Z)
    then Ok (delete dev m, None)
    else
      let good_signal_count :=
        length (filter (λ ir, (50000 < ir)%Z) ir_list) in
      let signal_quality :=
        match ir_list with
        | [] => 0%Q
        | _ => (inject_Z (Z.of_nat good_signal_count)
                / inject_Z (Z.of_nat (length ir_list)) * 100)%Q
        end in
      let duration := timedelta_seconds now (start_time session) in
      mean ← statistics_mean bpm_list;
      lo ← py_min bpm_list;
      hi ← py_max bpm_list;
      avg_ir ← match ir_list with
               | [] => Ok 0%Q
               | _ => mean_ir ← statistics_mean (inject_Z <$> ir_list);
                      Ok (py_round mean_ir 2)
               end;
      Ok (delete dev m,
          Some {| device_id := dev;
                  session_start := start_time session;
                  session_end := now_end;
                  duration_seconds := duration;
                  total_beats := beat_count session;
                  avg_bpm := py_round mean 2;
                  min_bpm := py_round lo 2;
                  max_bpm := py_round hi 2;
                  avg_ir_value := avg_ir;
                  signal_quality := py_round signal_quality 2;
                  waveform_sample := waveform_samples session |}).

End SessionManager.

(** ** Connections *)

(** A websocket object, identified by its identity. *)
Definition WebSocket : Type := nat.

(** What the peers have received so far, oldest first. *)
Definition outbox : Type := list (WebSocket * string).

(** [await connection.send_text(message)]: raises when the peer is gone
    ([broken]), otherwise the peer receives the message. *)
Definition send_text (broken : WebSocket → bool) (connection : WebSocket)
    (message : string) (net : outbox) : py outbox :=
  if broken connection then Raise SendFailed
  else Ok (net ++ [(connection, message)]).

(** [list.remove(x)]: drops the first occurrence, [ValueError] if there is
    none. *)
Fixpoint list_remove (x : WebSocket) (l : list WebSocket) : py (list WebSocket) :=
  match l with
  | [] => Raise ValueError
  | y :: l' =>
      if decide (x = y) then Ok l'
      else l'' ← list_remove x l'; Ok (y :: l'')
  end.

Module ConnectionManager.

(** The list update of [connect(websocket)], which the method reaches once
    [await websocket.accept()] has returned; the method as a whole is
    [Manager.connect] below. *)
Definition connect (websocket : WebSocket) (active_connections : list WebSocket)
  : list WebSocket :=
  active_connections ++ [websocket].

Definition disconnect (websocket : WebSocket)
    (active_connections : list WebSocket) : py (list WebSocket) :=
  if decide (websocket ∈ active_connections)
  then list_remove websocket active_connections
  else Ok active_connections.

(** The first loop of [broadcast]: one send per entry, failures collected. *)
Fixpoint send_loop (broken : WebSocket → bool) (message : string)
    (connections disconnected : list WebSocket) (net : outbox)
  : list WebSocket * outbox :=
  match connections with
  | [] => (disconnected, net)
  | connection :: rest =>
      match send_text broken connection message net with
      | Ok net' => send_loop broken message rest disconnected net'
      | Raise _ =>
          send_loop broken message rest (disconnected ++ [connection]) net
      end
  end.

(** The second loop of [broadcast]: [disconnect] for each failed entry. *)
Fixpoint disconnect_loop (disconnected active_connections : list WebSocket)
  : py (list WebSocket) :=
  match disconnected with
  | [] => Ok active_connections
  | conn :: rest =>
      active' ← disconnect conn active_connections;
      disconnect_loop rest active'
  end.

(** [broadcast(message)] when no other task touches the connection list
    while a send is suspended; the method with other tasks running in
    between is [Manager.broadcast] below. *)
Definition broadcast (broken : WebSocket → bool) (message : string)
    (active_connections : list WebSocket) (net : outbox)
  : py (list WebSocket * outbox) :=
  let '(disconnected, net') :=
    send_loop broken message active_connections [] net in
  active' ← disconnect_loop disconnected active_connections;
  Ok (active', net').

End ConnectionManager.

(** ** The connection manager as a shared object

    The methods of [ConnectionManager] as they run on the object that all
    endpoint coroutines share. *)

(** The application side of the websockets: [accepted] holds the websockets
    whose [accept()] has returned.  Modelled from the framework (Starlette),
    which is not part of the repository: [accept()] completes the handshake
    of a websocket that is still connecting and raises on any other. *)
Definition accept (websocket : WebSocket) (accepted : gset nat)
  : py (gset nat) :=
  if decide (websocket ∈ accepted) then Raise RuntimeError
  else Ok ({[websocket]} ∪ accepted).

Record hub : Type := {
  accepted : gset nat;
  active_connections : list WebSocket
}.

(** What another task does to the connection list while a send of
    [broadcast] is suspended: an endpoint that starts registers its
    websocket, an endpoint whose peer went away unregisters it. *)
Inductive interference : Type :=
  | Registers (websocket : WebSocket)
  | Unregisters (websocket : WebSocket).

Definition interfere (active : list WebSocket) (i : interference)
  : list WebSocket :=
  match i with
  | Registers websocket => ConnectionManager.connect websocket active
  | Unregisters websocket =>
      match ConnectionManager.disconnect websocket active with
      | Ok active' => active'
      | Raise _ => active
      end
  end.

Module Manager.

(** [connect(websocket)]: the state afterwards and whether the call
    returned.  When [accept()] raises, nothing is appended. *)
Definition connect (websocket : WebSocket) (h : hub) : hub * py unit :=
  match accept websocket (accepted h) with
  | Ok accepted' =>
      ({| accepted := accepted';
          active_connections :=
            ConnectionManager.connect websocket (active_connections h) |},
       Ok tt)
  | Raise e => (h, Raise e)
  end.

Definition disconnect (websocket : WebSocket) (h : hub) : hub * py unit :=
  match ConnectionManager.disconnect websocket (active_connections h) with
  | Ok active' =>
      ({| accepted := accepted h; active_connections := active' |}, Ok tt)
  | Raise e => (h, Raise e)
  end.

(** The first loop of [broadcast] over the live list.  The [for] statement
    keeps an index into [self.active_connections] and stops when the index
    is past the end of the list as it is then; [schedule] gives, send by
    send, what the other tasks do to the list while that send is suspended.
    Once the schedule is used up nobody else runs, and the loop is
    [ConnectionManager.send_loop] on what is left of the list. *)
Fixpoint send_loop (broken : WebSocket → bool) (message : string)
    (schedule : list (list interference)) (index : nat)
    (active disconnected : list WebSocket) (net : outbox)
  : list WebSocket * list WebSocket * outbox :=
  match schedule with
  | [] =>
      let '(disconnected', net') :=
        ConnectionManager.send_loop broken message (drop index active)
          disconnected net in
      (active, disconnected', net')
  | during :: later =>
      match active !! index with
      | None => (active, disconnected, net)
      | Some connection =>
          let active' := foldl interfere active during in
          match send_text broken connection message net with
          | Ok net' =>
              send_loop broken message later (S index) active' disconnected
                net'
          | Raise _ =>
              send_loop broken message later (S index) active'
                (disconnected ++ [connection]) net
          end
      end
  end.

(** [broadcast(message)] with other tasks running during the sends. *)
Definition broadcast (broken : WebSocket → bool) (message : string)
    (schedule : list (list interference))
    (active : list WebSocket) (net : outbox)
  : py (list WebSocket * outbox) :=
  let '(active', disconnected, net') :=
    send_loop broken message schedule 0 active [] net in
  active'' ← ConnectionManager.disconnect_loop disconnected active';
  Ok (active'', net').

End Manager.

(** ** Traces of registry operations *)

Inductive op : Type :=
  | StartSession (now : Z) (dev : string)
  | AddBeat (now_start now_sample : Z) (dev : string) (bpm : Q) (ir ac : Z)
  | GetSessionInfo (now : Z) (dev : string)
  | EndSession (now now_end : Z) (dev : string).

Definition exec (o : op) (m : gmap string session) : py (gmap string session) :=
  match o with
  | StartSession now dev => Ok (SessionManager.start_session now dev m).1
  | AddBeat now_start now_sample dev bpm ir ac =>
      SessionManager.add_beat now_start now_sample dev bpm ir ac m
  | GetSessionInfo now dev =>
      _ ← SessionManager.get_session_info now dev m; Ok m
  | EndSession now now_end dev =>
      r ← SessionManager.end_session now now_end dev m; Ok r.1
  end.

Fixpoint run (ops : list op) (m : gmap string session) : py (gmap string session) :=
  match ops with
  | [] => Ok m
  | o :: ops' => m' ← exec o m; run ops' m'
  end.

(** [o] creates a session for [dev]. *)
Definition opens (dev : string) (o : op) : Prop :=
  match o with
  | StartSession _ dev' | AddBeat _ _ dev' _ _ _ => dev' = dev
  | _ => False
  end.

(** ** The recorded history of a session

    What a session has been fed since it was started: its start time and
    the beats, oldest first.  The statements below relate the buffers of a
    session to this history. *)

Record beat : Type := {
  beat_bpm : Q;
  beat_ir : Z;
  beat_ac : Z;
  beat_time : Z
}.

(** The last [n] entries of a sequence. *)
Definition last_n {A : Type} (n : nat) (l : list A) : list A :=
  drop (length l - n) l.

(** The rate values admitted to the buffer: the strictly positive ones. *)
Definition admitted (bs : list beat) : list Q :=
  List.filter Qpositive (beat_bpm <$> bs).

(** The waveform sample of the [k]-th beat of a session. *)
Definition capture (k : nat) (b : beat) : sample :=
  {| beat_number := Z.of_nat k;
     sample_bpm := py_round (beat_bpm b) 2;
     sample_ir := beat_ir b;
     sample_ac := beat_ac b;
     timestamp := beat_time b |}.

(** The samples of the beats whose number (counting from 1) is a multiple
    of ten, in order. *)
Definition captures (bs : list beat) : list sample :=
  omap (λ kb, if decide ((Z.of_nat (S kb.1) `mod` 10)%Z = 0%Z)
              then Some (capture (S kb.1) kb.2) else None)
       (imap pair bs).

(** The session that a start at [start] followed by the beats [bs] is
    expected to leave. *)
Definition session_of (h : Z * list beat) : session :=
  {| start_time := h.1;
     bpm_values := last_n 1000 (admitted h.2);
     ir_values := last_n 1000 (beat_ir <$> h.2);
     beat_count := Z.of_nat (length h.2);
     waveform_samples := last_n 500 (captures h.2) |}.

(** The history of every device along a trace. *)
Definition record (o : op) (h : gmap string (Z * list beat))
  : gmap string (Z * list beat) :=
  match o with
  | StartSession now dev => <[dev := (now, [])]> h
  | AddBeat now_start now_sample dev bpm ir ac =>
      let b := {| beat_bpm := bpm; beat_ir := ir; beat_ac := ac;
                  beat_time := now_sample |} in
      match h !! dev with
      | Some (start, bs) => <[dev := (start, bs ++ [b])]> h
      | None => <[dev := (now_start, [b])]> h
      end
  | GetSessionInfo _ _ => h
  | EndSession _ _ dev => delete dev h
  end.

Definition history (ops : list op) : gmap string (Z * list beat) :=
  fold_left (λ h o, record o h) ops ∅.

(** The arithmetic mean of a sequence of rationals. *)
Definition arithmetic_mean (l : list Q) : Q :=
  (Qsum l / inject_Z (Z.of_nat (length l)))%Q.

(** The device that an operation addresses. *)
Definition op_device (o : op) : string :=
  match o with
  | StartSession _ dev | AddBeat _ _ dev _ _ _
  | GetSessionInfo _ dev | EndSession _ _ dev => dev
  end.

(** ** The websocket endpoint

    [websocket_endpoint] runs once per connection: it registers the
    connection, handles the received text frames one by one and cleans up
    when the peer goes away.  The handling of one frame and the clean-up are
    modelled as run to completion, without other connections being served in
    between.  What the database does is an input of the model: [commit] is
    [Some id] when [db.add]/[db.commit] go through and the new row gets the
    identifier [id], and [None] when they raise. *)

(** The fields that the endpoint reads from a received JSON object, [None]
    for a missing key. *)
Record event : Type := {
  event_type : option string;
  event_device_id : option string;
  event_bpm : option Q;
  event_ir : option Z;
  event_ac : option Z
}.

(** A received text frame.  [InvalidJson] stands for a text on which
    [json.loads] raises, and for one that decodes to something other than an
    object, on which the first [json_data.get] raises: both are logged and
    dropped before anything else happens. *)
Inductive frame : Type :=
  | InvalidJson
  | Json (json_data : event).

(** The objects that the endpoint hands to [json.dumps] and sends. *)
Inductive payload : Type :=
  | SessionStarted (dev : string) (time : Z)
  | SessionSaved (session_id beats : Z) (avg : Q) (seconds : Z)
  | SessionInfo (data : session_info)
  | Rebroadcast (json_data : event).

(** The module-level state: the session registry, the connection list, what
    the peers have received, and the rows of the table [heartbeat_sessions]
    with their identifiers, oldest first. *)
Record server : Type := {
  session_manager : gmap string session;
  manager : list WebSocket;
  network : outbox;
  heartbeat_sessions : list (Z * summary)
}.

(** [await websocket.send_text(...)] inside a [try] whose handler only logs. *)
Definition try_send (broken : WebSocket → bool) (websocket : WebSocket)
    (message : string) (sv : server) : server :=
  match send_text broken websocket message (network sv) with
  | Ok net' => {| session_manager := session_manager sv;
                  manager := manager sv;
                  network := net';
                  heartbeat_sessions := heartbeat_sessions sv |}
  | Raise _ => sv
  end.

Definition with_sessions (m : gmap string session) (sv : server) : server :=
  {| session_manager := m;
     manager := manager sv;
     network := network sv;
     heartbeat_sessions := heartbeat_sessions sv |}.

(** [db.add(session_record); db.commit()] for the row made of the summary,
    rolled back when it raises. *)
Definition db_save (commit : option Z) (sm : summary) (sv : server)
  : option Z * server :=
  match commit with
  | Some session_id =>
      (Some session_id,
       {| session_manager := session_manager sv;
          manager := manager sv;
          network := network sv;
          heartbeat_sessions := heartbeat_sessions sv ++ [(session_id, sm)] |})
  | None => (None, sv)
  end.

(** The body of the receive loop for one text frame.  [device_id] is the
    local variable of the coroutine before and, in the result, after the
    frame; [now] and [now'] are the clock readings of the handlers. *)
Definition websocket_receive (dumps : payload → string)
    (broken : WebSocket → bool) (commit : option Z) (now now' : Z)
    (websocket : WebSocket) (device_id : option string) (data : frame)
    (sv : server) : server * option string :=
  match data with
  | InvalidJson => (sv, device_id)
  | Json json_data =>
      let msg_type := event_type json_data in
      let dev := default "ESP32_001" (event_device_id json_data) in
      if decide (msg_type = Some "session_start") then
        let m := (SessionManager.start_session now dev (session_manager sv)).1 in
        (try_send broken websocket (dumps (SessionStarted dev now'))
           (with_sessions m sv),
         Some dev)
      else if decide (msg_type = Some "heartbeat") then
        match SessionManager.add_beat now now' dev
                (default 0%Q (event_bpm json_data))
                (default 0%Z (event_ir json_data))
                (default 0%Z (event_ac json_data))
                (session_manager sv) with
        | Raise _ => (sv, Some dev)
        | Ok m =>
            match ConnectionManager.broadcast broken
                    (dumps (Rebroadcast json_data))
                    (manager sv) (network sv) with
            | Ok (active', net') =>
                ({| session_manager := m;
                    manager := active';
                    network := net';
                    heartbeat_sessions := heartbeat_sessions sv |},
                 Some dev)
            | Raise _ => (with_sessions m sv, Some dev)
            end
        end
      else if decide (msg_type = Some "session_end") then
        match SessionManager.end_session now now' dev (session_manager sv) with
        | Raise _ => (sv, Some dev)
        | Ok (m, None) => (with_sessions m sv, Some dev)
        | Ok (m, Some sm) =>
            match db_save commit sm (with_sessions m sv) with
            | (Some session_id, sv') =>
                (try_send broken websocket
                   (dumps (SessionSaved session_id (total_beats sm)
                             (avg_bpm sm) (duration_seconds sm)))
                   sv',
                 Some dev)
            | (None, sv') => (sv', Some dev)
            end
        end
      else if decide (msg_type = Some "get_session_info") then
        match SessionManager.get_session_info now dev (session_manager sv) with
        | Ok (Some info) =>
            (try_send broken websocket (dumps (SessionInfo info)) sv, Some dev)
        | _ => (sv, Some dev)
        end
      else (sv, device_id)
  end.

(** The handler of [WebSocketDisconnect]: the session of the device last
    seen on the connection is ended and saved, then the connection is taken
    off the list. *)
Definition websocket_disconnect (commit : option Z) (now now' : Z)
    (websocket : WebSocket) (device_id : option string) (sv : server)
  : py server :=
  sv1 ← match device_id with
        | Some dev =>
            if decide (dev ≠ EmptyString ∧ session_manager sv !! dev ≠ None) then
              r ← SessionManager.end_session now now' dev (session_manager sv);
              match r.2 with
              | Some sm => Ok (db_save commit sm (with_sessions r.1 sv)).2
              | None => Ok (with_sessions r.1 sv)
              end
            else Ok sv
        | None => Ok sv
        end;
  active' ← ConnectionManager.disconnect websocket (manager sv1);
  Ok {| session_manager := session_manager sv1;
        manager := active';
        network := network sv1;
        heartbeat_sessions := heartbeat_sessions sv1 |}.

(** What happens on the server, connection by connection. *)
Inductive input : Type :=
  | Connect (websocket : WebSocket)
  | Receive (websocket : WebSocket) (broken : WebSocket → bool)
      (commit : option Z) (now now' : Z) (data : frame)
  | Disconnect (websocket : WebSocket) (commit : option Z) (now now' : Z).

(** The server together with the [device_id] variable of every running
    endpoint coroutine. *)
Record world : Type := {
  state : server;
  device_ids : gmap nat (option string)
}.

Definition initial : world :=
  {| state := {| session_manager := ∅; manager := []; network := [];
                 heartbeat_sessions := [] |};
     device_ids := ∅ |}.

(** One step of the server; inputs for a connection without a running
    coroutine do nothing. *)
Definition step (dumps : payload → string) (i : input) (w : world) : py world :=
  match i with
  | Connect websocket =>
      Ok {| state :=
              {| session_manager := session_manager (state w);
                 manager := ConnectionManager.connect websocket
                              (manager (state w));
                 network := network (state w);
                 heartbeat_sessions := heartbeat_sessions (state w) |};
            device_ids := <[websocket := None]> (device_ids w) |}
  | Receive websocket broken commit now now' data =>
      match device_ids w !! websocket with
      | Some device_id =>
          let r := websocket_receive dumps broken commit now now'
                     websocket device_id data (state w) in
          Ok {| state := r.1;
                device_ids := <[websocket := r.2]> (device_ids w) |}
      | None => Ok w
      end
  | Disconnect websocket commit now now' =>
      match device_ids w !! websocket with
      | Some device_id =>
          sv ← websocket_disconnect commit now now' websocket device_id
                 (state w);
          Ok {| state := sv; device_ids := delete websocket (device_ids w) |}
      | None => Ok w
      end
  end.

Fixpoint serve (dumps : payload → string) (inputs : list input) (w : world)
  : py world :=
  match inputs with
  | [] => Ok w
  | i :: rest => w' ← step dumps i w; serve dumps rest w'
  end.

(** What the rows of the table are expected to satisfy. *)
Definition well_formed (sm : summary) : Prop :=
  (1 ≤ total_beats sm)%Z ∧
  (0 <= min_bpm sm)%Q ∧
  (min_bpm sm <= avg_bpm sm)%Q ∧
  (avg_bpm sm <= max_bpm sm)%Q ∧
  (0 <= signal_quality sm <= 100)%Q ∧
  (0 ≤ duration_seconds sm < 86400)%Z.

(** ** The statistics endpoint *)

Record stats : Type := {
  total_sessions : Z;
  total_beats_recorded : Z;
  average_bpm_overall : Q;
  stats_active_sessions : Z;
  stats_active_connections : Z
}.

(** [get_stats()] over the rows of the table: zero and missing values are
    left out of the sum and of the mean ([if b[0]]), and the mean is taken
    whenever the table has a row. *)
Definition get_stats (sv : server) : py stats :=
  let total_beats := (λ row, total_beats row.2) <$> heartbeat_sessions sv in
  let total_beats_sum :=
    foldr Z.add 0%Z (filter (λ b, b ≠ 0%Z) total_beats) in
  let avg_bpm_all := (λ row, avg_bpm row.2) <$> heartbeat_sessions sv in
  avg_bpm_overall ←
    match avg_bpm_all with
    | [] => Ok 0%Q
    | _ => statistics_mean (List.filter (λ b, negb (Qeq_bool b 0)) avg_bpm_all)
    end;
  Ok {| total_sessions := Z.of_nat (length (heartbeat_sessions sv));
        total_beats_recorded := total_beats_sum;
        average_bpm_overall := py_round avg_bpm_overall 2;
        stats_active_sessions := Z.of_nat (size (session_manager sv));
        stats_active_connections := Z.of_nat (length (manager sv)) |}.

(** * Properties *)

(** ** The error monad *)

Lemma bind_Ok {A B : Type} (f : A → py B) (a : A) : (Ok a ≫= f) = f a.
Proof. reflexivity. Qed.

(** ** Extremes and mean of a non-empty sequence *)


Lemma statistics_mean_nonempty (l : list Q) :
  l ≠ [] → statistics_mean l = Ok (arithmetic_mean l).
Proof. destruct l; [congruence | reflexivity]. Qed.

Lemma py_min_nonempty (l : list Q) : l ≠ [] → ∃ lo, py_min l = Ok lo.
Proof. destruct l; [congruence | eauto]. Qed.

Lemma py_max_nonempty (l : list Q) : l ≠ [] → ∃ hi, py_max l = Ok hi.
Proof. destruct l; [congruence | eauto]. Qed.

(** ** [end_session] *)

Section end_session.
Import SessionManager.

Lemma end_session_absent now now_end dev (m : gmap string session) :
  m !! dev = None → end_session now now_end dev m = Ok (m, None).
Proof. intros H. unfold end_session. by rewrite decide_True. Qed.

Lemma end_session_no_data now now_end dev (m : gmap string session) s :
  m !! dev = Some s →
  bpm_values s = [] ∨ beat_count s = 0%Z →
  end_session now now_end dev m = Ok (delete dev m, None).
Proof.
  intros Hs Hempty. unfold end_session, getitem.
  rewrite decide_False by congruence.
  rewrite Hs. simpl. by rewrite decide_True.
Qed.

(** With data, the summary is built from the buffers of the session. *)
Lemma end_session_data now now_end dev (m : gmap string session) s :
  m !! dev = Some s →
  bpm_values s ≠ [] →
  beat_count s ≠ 0%Z →
  ∃ sm lo hi,
    end_session now now_end dev m = Ok (delete dev m, Some sm) ∧
    py_min (bpm_values s) = Ok lo ∧
    py_max (bpm_values s) = Ok hi ∧
    duration_seconds sm = timedelta_seconds now (start_time s) ∧
    total_beats sm = beat_count s ∧
    avg_bpm sm = py_round (arithmetic_mean (bpm_values s)) 2 ∧
    min_bpm sm = py_round lo 2 ∧
    max_bpm sm = py_round hi 2 ∧
    signal_quality sm =
      py_round
        match ir_values s with
        | [] => 0%Q
        | _ => (inject_Z (Z.of_nat
                  (length (filter (λ ir, (50000 < ir)%Z) (ir_values s))))
                / inject_Z (Z.of_nat (length (ir_values s))) * 100)%Q
        end 2 ∧
    waveform_sample sm = waveform_samples s.
Proof.
  intros Hs Hbpm Hcount. unfold end_session, getitem.
  rewrite decide_False by congruence.
  rewrite Hs. simpl. rewrite decide_False by tauto.
  destruct (py_min_nonempty _ Hbpm) as [lo Hlo].
  destruct (py_max_nonempty _ Hbpm) as [hi Hhi].
  rewrite (statistics_mean_nonempty _ Hbpm), Hlo, Hhi. simpl.
  destruct (ir_values s) as [|i irs] eqn:Hir; simpl;
    eexists _, lo, hi; (split; [reflexivity |]); simpl; rewrite ?Hir; tauto.
Qed.

(** [end_session] never raises, removes the device and touches no other. *)
Lemma end_session_total now now_end dev (m : gmap string session) :
  ∃ m' r,
    end_session now now_end dev m = Ok (m', r) ∧
    m' !! dev = None ∧
    ∀ dev', dev' ≠ dev → m' !! dev' = m !! dev'.
Proof.
  destruct (m !! dev) as [s|] eqn:Hs.
  - destruct (decide (bpm_values s = [] ∨ beat_count s = 0%Z)) as [He|Hne].
    + exists (delete dev m), None.
      rewrite (end_session_no_data _ _ _ _ _ Hs He).
      split; [done |]. split; [apply lookup_delete_eq |].
      intros. by apply lookup_delete_ne.
    + destruct (end_session_data now now_end dev m s Hs)
        as (sm & lo & hi & Hrun & _); [tauto | tauto |].
      exists (delete dev m), (Some sm).
      split; [done |]. split; [apply lookup_delete_eq |].
      intros. by apply lookup_delete_ne.
  - exists m, None. rewrite end_session_absent by done. done.
Qed.

End end_session.

(** ** Bounded sequences *)

Lemma last_n_length {A : Type} (n : nat) (l : list A) :
  length (last_n n l) = n `min` length l.
Proof. unfold last_n. rewrite length_drop. lia. Qed.

Lemma last_n_short {A : Type} (n : nat) (l : list A) :
  length l ≤ n → last_n n l = l.
Proof.
  intros H. unfold last_n. replace (length l - n) with 0 by lia. apply drop_0.
Qed.

(** Appending to a full or partly filled [deque] keeps it the tail of what
    was appended so far. *)
Lemma last_n_snoc {A : Type} (n : nat) (l : list A) (x : A) :
  last_n n (l ++ [x]) = deque_append n x (last_n n l).
Proof.
  unfold deque_append. rewrite length_app, last_n_length. simpl.
  unfold last_n. rewrite length_app. simpl.
  destruct (decide (n < n `min` length l + 1)) as [Hfull|Hroom].
  - rewrite <- drop_app_le by lia. rewrite drop_drop.
    f_equal. lia.
  - replace (length l - n) with 0 by lia.
    replace (length l + 1 - n) with 0 by lia.
    by rewrite !drop_0.
Qed.

Lemma admitted_snoc (bs : list beat) (b : beat) :
  admitted (bs ++ [b]) =
  admitted bs ++ (if Qpositive (beat_bpm b) then [beat_bpm b] else []).
Proof.
  unfold admitted. rewrite fmap_app, List.filter_app. simpl.
  by destruct (Qpositive (beat_bpm b)).
Qed.

Lemma captures_snoc (bs : list beat) (b : beat) :
  captures (bs ++ [b]) =
  captures bs ++
  (if decide ((Z.of_nat (S (length bs)) `mod` 10)%Z = 0%Z)
   then [capture (S (length bs)) b] else []).
Proof.
  unfold captures. rewrite imap_app, omap_app. simpl.
  rewrite Nat.add_0_r. by case_decide.
Qed.

(** ** [add_beat] *)

Section add_beat.
Import SessionManager.

Lemma add_beat_present now_start now_sample dev bpm ir ac
    (m : gmap string session) s :
  m !! dev = Some s →
  add_beat now_start now_sample dev bpm ir ac m =
  Ok (<[dev :=
        {| start_time := start_time s;
           bpm_values := if Qpositive bpm
                         then deque_append 1000 bpm (bpm_values s)
                         else bpm_values s;
           ir_values := deque_append 1000 ir (ir_values s);
           beat_count := (beat_count s + 1)%Z;
           waveform_samples :=
             if decide (((beat_count s + 1) `mod` 10)%Z = 0%Z)
             then deque_append 500
                    {| beat_number := (beat_count s + 1)%Z;
                       sample_bpm := py_round bpm 2;
                       sample_ir := ir;
                       sample_ac := ac;
                       timestamp := now_sample |}
                    (waveform_samples s)
             else waveform_samples s |}]> m).
Proof.
  intros Hs. unfold add_beat, getitem.
  rewrite decide_False by congruence. by rewrite Hs.
Qed.

(** A beat for a device without a session starts one first. *)
Lemma add_beat_absent now_start now_sample dev bpm ir ac
    (m : gmap string session) :
  m !! dev = None →
  add_beat now_start now_sample dev bpm ir ac m =
  add_beat now_start now_sample dev bpm ir ac
    (start_session now_start dev m).1.
Proof.
  intros Hs. unfold add_beat at 2.
  rewrite decide_False by (simpl; by rewrite lookup_insert_eq).
  unfold add_beat. by rewrite decide_True.
Qed.

End add_beat.

(** ** Traces *)

(** No operation raises, and an operation on one device leaves the other
    devices alone. *)
Lemma exec_total (o : op) (m : gmap string session) :
  ∃ m', exec o m = Ok m' ∧
        ∀ dev, ¬ opens dev o → m !! dev = None → m' !! dev = None.
Proof.
  destruct o as [now d|t0 t1 d bpm ir ac|now d|now now_end d]; simpl.
  - eexists. split; [done |]. intros dev Hd Hm.
    rewrite lookup_insert_ne; done.
  - destruct (m !! d) as [s|] eqn:Hs.
    + rewrite (add_beat_present _ _ _ _ _ _ _ _ Hs).
      eexists. split; [done |]. intros dev Hd Hm.
      rewrite lookup_insert_ne; done.
    + rewrite add_beat_absent by done.
      erewrite add_beat_present
        by (simpl; apply lookup_insert_eq).
      eexists. split; [done |]. intros dev Hd Hm. simpl.
      rewrite !lookup_insert_ne; done.
  - exists m. split; [| done].
    unfold SessionManager.get_session_info, getitem.
    case_decide; [done |].
    destruct (m !! d) as [s|]; [| done]. simpl.
    destruct (bpm_values s); done.
  - destruct (end_session_total now now_end d m) as (m' & r & -> & Hd & Hother).
    exists m'. split; [done |]. intros dev _ Hm.
    destruct (decide (dev = d)) as [->|Hne]; [done |].
    by rewrite Hother.
Qed.

Lemma run_total (ops : list op) (m : gmap string session) :
  ∃ m', run ops m = Ok m' ∧
        ∀ dev, Forall (λ o, ¬ opens dev o) ops → m !! dev = None →
               m' !! dev = None.
Proof.
  revert m. induction ops as [|o ops IH]; intros m; simpl.
  - by exists m.
  - destruct (exec_total o m) as (m1 & -> & H1).
    destruct (IH m1) as (m2 & Hrun & H2).
    exists m2. split; [done |]. intros dev Hops Hm.
    inversion Hops; subst. auto.
Qed.

(** ** Sessions and their recorded history *)

Lemma session_of_start (now : Z) :
  session_of (now, []) =
  {| start_time := now; bpm_values := []; ir_values := [];
     beat_count := 0; waveform_samples := [] |}.
Proof. reflexivity. Qed.

(** One beat more in the history is one [add_beat] more on the session. *)
Lemma session_of_snoc (start : Z) (bs : list beat) now_sample bpm ir ac :
  let s := session_of (start, bs) in
  session_of (start, bs ++ [{| beat_bpm := bpm; beat_ir := ir; beat_ac := ac;
                              beat_time := now_sample |}]) =
  {| start_time := start_time s;
     bpm_values := if Qpositive bpm
                   then deque_append 1000 bpm (bpm_values s)
                   else bpm_values s;
     ir_values := deque_append 1000 ir (ir_values s);
     beat_count := (beat_count s + 1)%Z;
     waveform_samples :=
       if decide (((beat_count s + 1) `mod` 10)%Z = 0%Z)
       then deque_append 500
              {| beat_number := (beat_count s + 1)%Z;
                 sample_bpm := py_round bpm 2;
                 sample_ir := ir;
                 sample_ac := ac;
                 timestamp := now_sample |}
              (waveform_samples s)
       else waveform_samples s |}.
Proof.
  unfold session_of. cbn [fst snd start_time bpm_values ir_values beat_count
                          waveform_samples].
  rewrite admitted_snoc, fmap_app, captures_snoc, length_app. cbn [beat_bpm].
  replace (Z.of_nat (length bs + length [_])) with (Z.of_nat (length bs) + 1)%Z
    by (simpl; lia).
  replace (Z.of_nat (S (length bs))) with (Z.of_nat (length bs) + 1)%Z by lia.
  f_equal.
  - destruct (Qpositive bpm); [apply last_n_snoc | by rewrite app_nil_r].
  - apply (last_n_snoc 1000 (beat_ir <$> bs) ir).
  - case_decide.
    + rewrite last_n_snoc. unfold capture. simpl. do 3 f_equal. lia.
    + by rewrite app_nil_r.
Qed.

Lemma get_session_info_total now dev (m : gmap string session) :
  ∃ r, SessionManager.get_session_info now dev m = Ok r.
Proof.
  unfold SessionManager.get_session_info, getitem.
  case_decide; [by eexists |].
  destruct (m !! dev) as [s|]; [| done]. simpl.
  destruct (bpm_values s); by eexists.
Qed.

(** Every operation maps sessions that match their history to sessions that
    match their history. *)
Lemma exec_history (o : op) (h : gmap string (Z * list beat)) :
  exec o (session_of <$> h) = Ok (session_of <$> record o h).
Proof.
  destruct o as [now d|t0 t1 d bpm ir ac|now d|now now_end d]; simpl.
  - by rewrite fmap_insert.
  - destruct (h !! d) as [[start bs]|] eqn:Hh.
    + erewrite add_beat_present by (rewrite lookup_fmap, Hh; reflexivity).
      rewrite fmap_insert. by rewrite session_of_snoc.
    + rewrite add_beat_absent by (by rewrite lookup_fmap, Hh).
      erewrite add_beat_present by (simpl; apply lookup_insert_eq).
      simpl. rewrite insert_insert_eq, fmap_insert. do 2 f_equal.
      apply (eq_sym (session_of_snoc t0 [] t1 bpm ir ac)).
  - by destruct (get_session_info_total now d (session_of <$> h)) as [r ->].
  - destruct (h !! d) as [hd|] eqn:Hh.
    + assert ((session_of <$> h) !! d = Some (session_of hd)) as Hs
        by (by rewrite lookup_fmap, Hh).
      destruct (decide (bpm_values (session_of hd) = [] ∨
                        beat_count (session_of hd) = 0%Z)) as [He|Hne].
      * rewrite (end_session_no_data _ _ _ _ _ Hs He). simpl.
        by rewrite fmap_delete.
      * destruct (end_session_data now now_end d _ _ Hs)
          as (sm & lo & hi & -> & _); [tauto | tauto |].
        simpl. by rewrite fmap_delete.
    + rewrite end_session_absent by (by rewrite lookup_fmap, Hh).
      simpl. rewrite delete_id; done.
Qed.

Lemma run_history_from (ops : list op) (h : gmap string (Z * list beat)) :
  run ops (session_of <$> h) =
  Ok (session_of <$> fold_left (λ h o, record o h) ops h).
Proof.
  revert h. induction ops as [|o ops IH]; intros h; simpl; [done |].
  rewrite exec_history. simpl. apply IH.
Qed.

(** From the empty registry, a trace leaves exactly the sessions of the
    histories it records. *)
Lemma run_history (ops : list op) :
  run ops ∅ = Ok (session_of <$> history ops).
Proof.
  unfold history. rewrite <- run_history_from. by rewrite fmap_empty.
Qed.

(** ** Rounding *)

Lemma round_half_even_bounds (x : Q) :
  (Qfloor x ≤ round_half_even x ≤ Qfloor x + 1)%Z.
Proof.
  unfold round_half_even.
  destruct (x - inject_Z (Qfloor x) ?= 1 # 2)%Q; [| lia | lia].
  destruct (Z.even (Qfloor x)); lia.
Qed.

Lemma round_half_even_mono (x y : Q) :
  (x <= y)%Q → (round_half_even x ≤ round_half_even y)%Z.
Proof.
  intros Hxy.
  pose proof (Qfloor_resp_le x y Hxy) as Hfloor.
  pose proof (round_half_even_bounds x) as Hx.
  pose proof (round_half_even_bounds y) as Hy.
  destruct (decide (Qfloor x = Qfloor y)) as [Heq|Hne]; [| lia].
  clear Hx Hy Hfloor. unfold round_half_even. rewrite <- Heq.
  destruct (Qcompare_spec (x - inject_Z (Qfloor x)) (1 # 2)) as [Hx|Hx|Hx];
    destruct (Qcompare_spec (y - inject_Z (Qfloor x)) (1 # 2)) as [Hy|Hy|Hy];
    try (destruct (Z.even (Qfloor x))); try lia; exfalso; lra.
Qed.

Lemma scale_pos (ndigits : nat) : (0 < inject_Z (10 ^ Z.of_nat ndigits))%Q.
Proof.
  replace 0%Q with (inject_Z 0) by reflexivity.
  rewrite <- Zlt_Qlt. apply Z.pow_pos_nonneg; lia.
Qed.

Lemma py_round_mono (x y : Q) (ndigits : nat) :
  (x <= y)%Q → (py_round x ndigits <= py_round y ndigits)%Q.
Proof.
  intros Hxy. unfold py_round.
  pose proof (scale_pos ndigits) as Hscale.
  set (scale := inject_Z (10 ^ Z.of_nat ndigits)) in *.
  apply Qmult_le_compat_r; [| apply Qlt_le_weak, Qinv_lt_0_compat, Hscale].
  rewrite <- Zle_Qle. apply round_half_even_mono.
  apply Qmult_le_compat_r; [done | by apply Qlt_le_weak].
Qed.

(** ** Minimum, mean and maximum *)

Lemma fold_min_spec (l : list Q) (acc : Q) :
  let r := fold_left (λ acc y, if Qlt_le_dec y acc then y else acc) l acc in
  (r <= acc)%Q ∧ Forall (λ y, (r <= y)%Q) l.
Proof.
  revert acc. induction l as [|y l IH]; intros acc; simpl.
  - split; [apply Qle_refl | constructor].
  - destruct (Qlt_le_dec y acc) as [Hlt|Hle].
    + destruct (IH y) as [Hr Hall]. split; [lra |]. by constructor.
    + destruct (IH acc) as [Hr Hall]. split; [done |]. constructor; [lra | done].
Qed.

Lemma fold_max_spec (l : list Q) (acc : Q) :
  let r := fold_left (λ acc y, if Qlt_le_dec acc y then y else acc) l acc in
  (acc <= r)%Q ∧ Forall (λ y, (y <= r)%Q) l.
Proof.
  revert acc. induction l as [|y l IH]; intros acc; simpl.
  - split; [apply Qle_refl | constructor].
  - destruct (Qlt_le_dec acc y) as [Hlt|Hle].
    + destruct (IH y) as [Hr Hall]. split; [lra |]. by constructor.
    + destruct (IH acc) as [Hr Hall]. split; [done |]. constructor; [lra | done].
Qed.

Lemma Qsum_lower (l : list Q) (lo : Q) :
  Forall (λ y, (lo <= y)%Q) l →
  (lo * inject_Z (Z.of_nat (length l)) <= Qsum l)%Q.
Proof.
  induction 1 as [|y l Hy Hl IH]; simpl.
  - change (inject_Z (Z.of_nat 0)) with 0%Q. lra.
  - rewrite Nat2Z.inj_succ. unfold Z.succ. rewrite inject_Z_plus.
    change (inject_Z 1) with 1%Q. lra.
Qed.

Lemma Qsum_upper (l : list Q) (hi : Q) :
  Forall (λ y, (y <= hi)%Q) l →
  (Qsum l <= hi * inject_Z (Z.of_nat (length l)))%Q.
Proof.
  induction 1 as [|y l Hy Hl IH]; simpl.
  - change (inject_Z (Z.of_nat 0)) with 0%Q. lra.
  - rewrite Nat2Z.inj_succ. unfold Z.succ. rewrite inject_Z_plus.
    change (inject_Z 1) with 1%Q. lra.
Qed.

Lemma length_pos_Q {A : Type} (l : list A) :
  l ≠ [] → (0 < inject_Z (Z.of_nat (length l)))%Q.
Proof.
  intros Hl. replace 0%Q with (inject_Z 0) by reflexivity.
  rewrite <- Zlt_Qlt. destruct l; [done | simpl; lia].
Qed.

Lemma py_min_le_mean (l : list Q) (lo : Q) :
  py_min l = Ok lo → (lo <= arithmetic_mean l)%Q.
Proof.
  destruct l as [|x l]; [done |]. intros [= <-].
  destruct (fold_min_spec l x) as [Hx Hall].
  unfold arithmetic_mean.
  apply Qle_shift_div_l; [by apply length_pos_Q |].
  apply Qsum_lower. by constructor.
Qed.

Lemma mean_le_py_max (l : list Q) (hi : Q) :
  py_max l = Ok hi → (arithmetic_mean l <= hi)%Q.
Proof.
  destruct l as [|x l]; [done |]. intros [= <-].
  destruct (fold_max_spec l x) as [Hx Hall].
  unfold arithmetic_mean.
  apply Qle_shift_div_r; [by apply length_pos_Q |].
  apply Qsum_upper. by constructor.
Qed.

(** ** Signal quality *)

Lemma quality_ratio_bounds (good total : nat) :
  good ≤ total → 0 < total →
  (0 <= inject_Z (Z.of_nat good) / inject_Z (Z.of_nat total) * 100 <= 100)%Q.
Proof.
  intros Hle Hpos.
  assert (0 < inject_Z (Z.of_nat total))%Q as Htotal.
  { replace 0%Q with (inject_Z 0) by reflexivity. rewrite <- Zlt_Qlt. lia. }
  assert (0 <= inject_Z (Z.of_nat good))%Q as Hgood0.
  { replace 0%Q with (inject_Z 0) by reflexivity. rewrite <- Zle_Qle. lia. }
  assert (inject_Z (Z.of_nat good) <= inject_Z (Z.of_nat total))%Q as Hgood1.
  { rewrite <- Zle_Qle. lia. }
  assert (0 <= inject_Z (Z.of_nat good) / inject_Z (Z.of_nat total) <= 1)%Q
    as [H0 H1].
  { split.
    - apply Qle_shift_div_l; [done | lra].
    - apply Qle_shift_div_r; [done | lra]. }
  split; lra.
Qed.

Lemma py_round_quality_bounds (q : Q) :
  (0 <= q <= 100)%Q → (0 <= py_round q 2 <= 100)%Q.
Proof.
  intros [H0 H100]. split.
  - assert (py_round 0 2 == 0)%Q as <- by reflexivity.
    by apply py_round_mono.
  - assert (py_round 100 2 == 100)%Q as <- by reflexivity.
    by apply py_round_mono.
Qed.

(** ** The connection list *)

Lemma list_remove_first (x : WebSocket) (pre l : list WebSocket) :
  x ∉ pre → list_remove x (pre ++ x :: l) = Ok (pre ++ l).
Proof.
  induction pre as [|y pre IH]; intros Hx; simpl.
  - by rewrite decide_True.
  - apply not_elem_of_cons in Hx as [Hne Hx].
    rewrite decide_False by done. by rewrite IH.
Qed.

Lemma disconnect_absent (websocket : WebSocket) (l : list WebSocket) :
  websocket ∉ l → ConnectionManager.disconnect websocket l = Ok l.
Proof. intros H. unfold ConnectionManager.disconnect. by rewrite decide_False. Qed.

Lemma disconnect_first (websocket : WebSocket) (pre l : list WebSocket) :
  websocket ∉ pre →
  ConnectionManager.disconnect websocket (pre ++ websocket :: l) = Ok (pre ++ l).
Proof.
  intros H. unfold ConnectionManager.disconnect.
  rewrite decide_True by set_solver. by apply list_remove_first.
Qed.

(** The first loop sends to the entries in order and collects the failures
    in order. *)
Lemma send_loop_spec (broken : WebSocket → bool) (message : string)
    (connections disconnected : list WebSocket) (net : outbox) :
  ConnectionManager.send_loop broken message connections disconnected net =
  (disconnected ++ List.filter broken connections,
   net ++ ((λ c, (c, message)) <$>
           List.filter (λ c, negb (broken c)) connections)).
Proof.
  revert disconnected net.
  induction connections as [|c rest IH]; intros disconnected net; simpl.
  - by rewrite !app_nil_r.
  - unfold send_text. destruct (broken c); simpl; rewrite IH.
    + by rewrite <- app_assoc.
    + by rewrite <- app_assoc.
Qed.

(** The second loop drops, entry by entry, the failures out of the list. *)
Lemma disconnect_loop_spec (broken : WebSocket → bool)
    (pre l : list WebSocket) :
  Forall (λ c, broken c = false) pre →
  ConnectionManager.disconnect_loop (List.filter broken l) (pre ++ l) =
  Ok (pre ++ List.filter (λ c, negb (broken c)) l).
Proof.
  revert pre. induction l as [|c l IH]; intros pre Hpre; simpl.
  - done.
  - destruct (broken c) eqn:Hc; simpl.
    + rewrite disconnect_first; [by apply IH |].
      intros Hin. rewrite Forall_forall in Hpre.
      specialize (Hpre c Hin). congruence.
    + rewrite (cons_middle c pre l), app_assoc, IH.
      * by rewrite <- app_assoc.
      * apply Forall_app. split; [done |]. by constructor.
Qed.

Lemma broadcast_spec (broken : WebSocket → bool) (message : string)
    (active_connections : list WebSocket) (net : outbox) :
  ConnectionManager.broadcast broken message active_connections net =
  Ok (List.filter (λ c, negb (broken c)) active_connections,
      net ++ ((λ c, (c, message)) <$>
              List.filter (λ c, negb (broken c)) active_connections)).
Proof.
  unfold ConnectionManager.broadcast. rewrite send_loop_spec. simpl.
  pose proof (disconnect_loop_spec broken [] active_connections) as Hloop.
  simpl in Hloop. by rewrite Hloop.
Qed.

(** ** Durations *)

(** Within a day, [timedelta.seconds] is the elapsed time in whole seconds. *)
Lemma timedelta_seconds_within_a_day (later earlier : Z) :
  (0 ≤ later - earlier < 86400 * 1000000)%Z →
  timedelta_seconds later earlier = ((later - earlier) `div` 1000000)%Z.
Proof.
  intros H. unfold timedelta_seconds. apply Z.mod_small. split.
  - apply Z.div_pos; lia.
  - apply Z.div_lt_upper_bound; lia.
Qed.

Lemma Qpositive_false (x : Q) : (x <= 0)%Q → Qpositive x = false.
Proof.
  intros H. unfold Qpositive.
  destruct (Qcompare_spec 0 x) as [?|Hlt|?]; [done | lra | done].
Qed.

Lemma admitted_nonempty (bs : list beat) :
  last_n 1000 (admitted bs) ≠ [] → Z.of_nat (length bs) ≠ 0%Z.
Proof. destruct bs; [done | simpl; lia]. Qed.

(** * The claims *)

(** C1: [end_session] on a session whose beat count is zero or whose rate
    buffer is empty returns "nothing to save" ([None]) and no summary; the
    session is dropped from the registry. *)
Theorem end_session_without_data_saves_nothing
    (now now_end : Z) (dev : string) (m : gmap string session) (s : session) :
  m !! dev = Some s →
  beat_count s = 0%Z ∨ bpm_values s = [] →
  SessionManager.end_session now now_end dev m = Ok (delete dev m, None).
Proof.
  intros Hs Hempty. apply (end_session_no_data _ _ _ _ s Hs). tauto.
Qed.

Lemma end_session_without_data_saves_nothing_witness :
  SessionManager.end_session 9000000 9000001 "ESP32_001"
    {[ "ESP32_001" := {| start_time := 0; bpm_values := [];
                         ir_values := [61000; 62000]%Z; beat_count := 2;
                         waveform_samples := [] |} ]}
  = Ok (delete "ESP32_001"
          {[ "ESP32_001" := {| start_time := 0; bpm_values := [];
                               ir_values := [61000; 62000]%Z; beat_count := 2;
                               waveform_samples := [] |} ]}, None).
Proof.
  apply (end_session_without_data_saves_nothing 9000000 9000001 "ESP32_001" _
           {| start_time := 0; bpm_values := [];
              ir_values := [61000; 62000]%Z; beat_count := 2;
              waveform_samples := [] |}).
  - reflexivity.
  - right. reflexivity.
Defined.

(** C2: the summary's [duration_seconds] is the elapsed time in whole
    seconds.  On a session that lasted one day and five seconds the code
    reports five seconds: [timedelta.seconds] leaves the days out. *)
Theorem end_session_duration_drops_whole_days :
  ∃ m sm,
    run [StartSession 0 "ESP32_001";
         AddBeat 1000000 1000000 "ESP32_001" 72 60000 120] ∅ = Ok m ∧
    SessionManager.end_session 86405000000 86405000001 "ESP32_001" m =
      Ok (delete "ESP32_001" m, Some sm) ∧
    session_start sm = 0%Z ∧
    ((86405000000 - session_start sm) `div` 1000000)%Z = 86405%Z ∧
    duration_seconds sm = 5%Z.
Proof.
  eexists _, _. split; [apply run_history |].
  split; [vm_compute; reflexivity |]. by vm_compute.
Qed.

(** C3: registering twice is registering once, and on a hub whose listed
    websockets have all been accepted, which is how [connect] lists them,
    [connect] of a listed websocket leaves the hub as it was (the second
    [accept()] raises before the append); [disconnect] of a websocket that
    is not listed returns and leaves the hub as it was.  Both methods keep
    the listed websockets accepted. *)
Theorem register_unregister_idempotent (websocket : WebSocket) (h : hub) :
  (∀ c, c ∈ active_connections h → c ∈ accepted h) →
  (Manager.connect websocket (Manager.connect websocket h).1).1 =
    (Manager.connect websocket h).1 ∧
  (websocket ∈ active_connections h → (Manager.connect websocket h).1 = h) ∧
  (websocket ∉ active_connections h →
   Manager.disconnect websocket h = (h, Ok tt)) ∧
  (∀ c, c ∈ active_connections (Manager.connect websocket h).1 →
        c ∈ accepted (Manager.connect websocket h).1) ∧
  (∀ c, c ∈ active_connections (Manager.disconnect websocket h).1 →
        c ∈ accepted (Manager.disconnect websocket h).1).
Proof.
  intros Hlisted. split; [| split; [| split; [| split]]].
  - destruct (decide (websocket ∈ accepted h)) as [Hacc|Hacc].
    + assert (Manager.connect websocket h = (h, Raise RuntimeError)) as ->
        by (unfold Manager.connect, accept; by rewrite decide_True).
      simpl. unfold Manager.connect, accept. by rewrite decide_True.
    + unfold Manager.connect at 2 3. unfold accept.
      rewrite decide_False by done. simpl.
      unfold Manager.connect, accept. simpl.
      rewrite decide_True by set_solver. done.
  - intros Hin. unfold Manager.connect, accept.
    by rewrite decide_True by auto.
  - intros Hnot. unfold Manager.disconnect.
    rewrite disconnect_absent by done. by destruct h.
  - unfold Manager.connect, accept. case_decide as Hacc; simpl; [done |].
    intros c Hc. unfold ConnectionManager.connect in Hc.
    apply elem_of_app in Hc as [Hc|Hc]; [set_solver |].
    apply list_elem_of_singleton in Hc. set_solver.
  - unfold Manager.disconnect.
    destruct (decide (websocket ∈ active_connections h)) as [Hin|Hnot].
    + apply list_elem_of_split_l in Hin as (pre & post & Hl & Hpre).
      rewrite Hl, disconnect_first by done. simpl.
      intros c Hc. apply Hlisted. rewrite Hl.
      apply elem_of_app in Hc as [Hc|Hc]; set_solver.
    + rewrite disconnect_absent by done. done.
Qed.

Lemma register_unregister_idempotent_witness :
  (Manager.connect 7
     (Manager.connect 7 {| accepted := {[7]}; active_connections := [7] |}).1).1 =
    (Manager.connect 7 {| accepted := {[7]}; active_connections := [7] |}).1 ∧
  (7 ∈ [7] →
   (Manager.connect 7 {| accepted := {[7]}; active_connections := [7] |}).1 =
   {| accepted := {[7]}; active_connections := [7] |}) ∧
  (8 ∉ [7] →
   Manager.disconnect 8 {| accepted := {[7]}; active_connections := [7] |} =
   ({| accepted := {[7]}; active_connections := [7] |}, Ok tt)).
Proof.
  assert (∀ c, c ∈ active_connections
                     {| accepted := {[7]}; active_connections := [7] |} →
               c ∈ accepted
                     {| accepted := {[7]}; active_connections := [7] |})
    as Hlisted.
  { intros c Hc. simpl in *. apply list_elem_of_singleton in Hc. set_solver. }
  destruct (register_unregister_idempotent 7 _ Hlisted) as (Htwice & Hin & _).
  destruct (register_unregister_idempotent 8 _ Hlisted) as (_ & _ & Hout & _).
  split; [exact Htwice |]. split; [exact Hin | exact Hout].
Defined.

(** C4: whatever the registry, [end_session] returns without raising and
    leaves the device absent from [active_sessions]; the device stays absent
    along every later run of operations none of which is a [start_session]
    or an [add_beat] for it. *)
Theorem end_session_leaves_device_absent
    (now now_end : Z) (dev : string) (m : gmap string session)
    (ops : list op) :
  Forall (λ o, ¬ opens dev o) ops →
  ∃ m' r m'',
    SessionManager.end_session now now_end dev m = Ok (m', r) ∧
    m' !! dev = None ∧
    run ops m' = Ok m'' ∧
    m'' !! dev = None.
Proof.
  intros Hops.
  destruct (end_session_total now now_end dev m) as (m' & r & Hend & Hdev & _).
  destruct (run_total ops m') as (m'' & Hrun & Hstay).
  exists m', r, m''. auto.
Qed.

Lemma end_session_leaves_device_absent_witness :
  ∃ m' r m'',
    SessionManager.end_session 9000000 9000001 "A"
      {[ "A" := session_of (0%Z, [{| beat_bpm := 72; beat_ir := 60000;
                                     beat_ac := 3; beat_time := 1 |}]) ]}
      = Ok (m', r) ∧
    m' !! "A" = None ∧
    run [GetSessionInfo 9000002 "A"; AddBeat 9000003 9000004 "B" 70 60000 3;
         EndSession 9000005 9000006 "A"; StartSession 9000007 "B"] m'
      = Ok m'' ∧
    m'' !! "A" = None.
Proof.
  apply (end_session_leaves_device_absent 9000000 9000001 "A").
  repeat constructor; simpl; first [tauto | discriminate].
Defined.






Lemma deque_append_last {A : Type} (n : nat) (x : A) (q : list A) :
  1 ≤ n → last (deque_append n x q) = Some x.
Proof.
  intros Hn. unfold deque_append. rewrite length_app. simpl.
  case_decide; [| apply last_snoc].
  rewrite drop_app_le by lia. apply last_snoc.
Qed.

(** C6: a beat with a non-positive rate leaves the rate buffer as it was
    (for a device without a session: the empty buffer of the session started
    on the spot), increments the beat count by one and appends the amplitude
    to the amplitude buffer. *)
Theorem add_beat_non_positive_rate
    (now_start now_sample : Z) (dev : string) (bpm : Q) (ir ac : Z)
    (m : gmap string session) :
  (bpm <= 0)%Q →
  ∃ m' s',
    SessionManager.add_beat now_start now_sample dev bpm ir ac m = Ok m' ∧
    m' !! dev = Some s' ∧
    bpm_values s' =
      bpm_values (default (SessionManager.start_session now_start dev m).2
                          (m !! dev)) ∧
    beat_count s' =
      (beat_count (default (SessionManager.start_session now_start dev m).2
                           (m !! dev)) + 1)%Z ∧
    ir_values s' =
      deque_append 1000 ir
        (ir_values (default (SessionManager.start_session now_start dev m).2
                            (m !! dev))) ∧
    last (ir_values s') = Some ir.
Proof.
  intros Hbpm. apply Qpositive_false in Hbpm.
  destruct (m !! dev) as [s|] eqn:Hs.
  - rewrite (add_beat_present _ _ _ _ _ _ _ _ Hs), Hbpm.
    eexists _, _. split; [reflexivity |].
    split; [apply lookup_insert_eq |]. simpl.
    repeat split. apply deque_append_last. lia.
  - rewrite add_beat_absent by done.
    erewrite add_beat_present by (simpl; apply lookup_insert_eq).
    rewrite Hbpm.
    eexists _, _. split; [reflexivity |].
    split; [apply lookup_insert_eq |]. simpl.
    repeat split.
Qed.

Lemma add_beat_non_positive_rate_witness :
  ∃ m' s',
    SessionManager.add_beat 5 6 "A" 0 61000 7
      {[ "A" := {| start_time := 0; bpm_values := [60; 62]%Q;
                   ir_values := [60000; 60500]%Z; beat_count := 2;
                   waveform_samples := [] |} ]} = Ok m' ∧
    m' !! "A" = Some s' ∧
    bpm_values s' = [60; 62]%Q ∧
    beat_count s' = 3%Z ∧
    ir_values s' = deque_append 1000 61000%Z [60000; 60500]%Z ∧
    last (ir_values s') = Some 61000%Z.
Proof.
  assert (0 <= 0)%Q as Hrate by discriminate.
  exact (add_beat_non_positive_rate 5 6 "A" 0 61000 7
           {[ "A" := {| start_time := 0; bpm_values := [60; 62]%Q;
                        ir_values := [60000; 60500]%Z; beat_count := 2;
                        waveform_samples := [] |} ]} Hrate).
Defined.

(** The captures are the samples of exactly the beats whose number is a
    multiple of ten. *)
Lemma captures_spec (bs : list beat) (smp : sample) :
  smp ∈ captures bs ↔
  ∃ k b, bs !! k = Some b ∧ (Z.of_nat (S k) `mod` 10)%Z = 0%Z ∧
         smp = capture (S k) b.
Proof.
  unfold captures. rewrite list_elem_of_omap. split.
  - intros ([k b] & Hin & Hsome).
    apply elem_of_lookup_imap in Hin as (i & y & [= -> ->] & Hlook).
    simpl in Hsome. case_decide; [| done].
    injection Hsome as <-. eauto.
  - intros (k & b & Hlook & Hmod & ->).
    exists (k, b). split.
    + apply elem_of_lookup_imap. eauto.
    + simpl. by rewrite decide_True.
Qed.

(** C7: for a session with recorded beats [bs], the waveform trace holds the
    samples taken at the beats whose number, counted from one, is a multiple
    of ten and at no other beat; it is the last at most 500 of them in order
    of capture, so that it never exceeds 500 entries and loses its oldest
    entry first. *)
Theorem waveform_samples_every_tenth_beat
    (ops : list op) (dev : string) (start : Z) (bs : list beat) :
  history ops !! dev = Some (start, bs) →
  ∃ m s,
    run ops ∅ = Ok m ∧
    m !! dev = Some s ∧
    beat_count s = Z.of_nat (length bs) ∧
    waveform_samples s = last_n 500 (captures bs) ∧
    length (waveform_samples s) ≤ 500 ∧
    (∀ smp, smp ∈ captures bs ↔
            ∃ k b, bs !! k = Some b ∧ (Z.of_nat (S k) `mod` 10)%Z = 0%Z ∧
                   smp = {| beat_number := Z.of_nat (S k);
                            sample_bpm := py_round (beat_bpm b) 2;
                            sample_ir := beat_ir b;
                            sample_ac := beat_ac b;
                            timestamp := beat_time b |}).
Proof.
  intros Hh.
  exists (session_of <$> history ops), (session_of (start, bs)).
  split; [apply run_history |].
  split; [by rewrite lookup_fmap, Hh |].
  split; [done |]. split; [done |].
  split; [simpl; rewrite last_n_length; lia |].
  apply captures_spec.
Qed.

Lemma waveform_samples_every_tenth_beat_witness :
  ∃ m s,
    run (StartSession 0 "A" :: replicate 25 (AddBeat 1 2 "A" 60 60000 5)) ∅
      = Ok m ∧
    m !! "A" = Some s ∧
    beat_count s = 25%Z ∧
    beat_number <$> waveform_samples s = [10; 20]%Z.
Proof.
  destruct (waveform_samples_every_tenth_beat
              (StartSession 0 "A" :: replicate 25 (AddBeat 1 2 "A" 60 60000 5))
              "A" 0
              (replicate 25 {| beat_bpm := 60; beat_ir := 60000;
                               beat_ac := 5; beat_time := 2 |})
              eq_refl)
    as (m & s & Hrun & Hs & Hcount & Hsamples & _).
  exists m, s. split; [exact Hrun |]. split; [exact Hs |].
  split; [exact Hcount |]. rewrite Hsamples. reflexivity.
Defined.

(** With no other task touching the connection list during the sends,
    [broadcast] sends the message once to every entry of the list, in order;
    the peers whose send does not fail all receive it, whatever fails before
    or after them, and the list afterwards holds exactly the entries whose
    send did not fail. *)
Lemma broadcast_delivers_and_prunes
    (broken : WebSocket → bool) (message later : string)
    (active_connections : list WebSocket) (net : outbox) :
  ∃ active' net',
    ConnectionManager.broadcast broken message active_connections net =
      Ok (active', net') ∧
    active' = List.filter (λ c, negb (broken c)) active_connections ∧
    net' = net ++ ((λ c, (c, message)) <$> active') ∧
    (∀ c, c ∈ active_connections → broken c = false → (c, message) ∈ net') ∧
    (∀ c, c ∈ active' ↔ c ∈ active_connections ∧ broken c = false) ∧
    ConnectionManager.broadcast broken later active' net' =
      Ok (active', net' ++ ((λ c, (c, later)) <$> active')).
Proof.
  eexists _, _. split; [apply broadcast_spec |].
  split; [done |]. split; [done |].
  assert (∀ c, c ∈ List.filter (λ c, negb (broken c)) active_connections ↔
               c ∈ active_connections ∧ broken c = false) as Hmem.
  { intros c. rewrite !list_elem_of_In, List.filter_In.
    by rewrite negb_true_iff. }
  split; [| split; [done |]].
  - intros c Hc Hok. apply elem_of_app. right.
    apply (list_elem_of_fmap_2 (λ c, (c, message))). apply Hmem. done.
  - rewrite broadcast_spec.
    assert (List.filter (λ c, negb (broken c))
              (List.filter (λ c, negb (broken c)) active_connections) =
            List.filter (λ c, negb (broken c)) active_connections) as ->; [| done].
    apply forallb_filter_id, forallb_forall.
    intros c Hc. by apply List.filter_In in Hc as [_ Hc].
Qed.

(** [Manager.broadcast] with nobody else running is
    [ConnectionManager.broadcast]. *)
Lemma broadcast_undisturbed (broken : WebSocket → bool) (message : string)
    (active : list WebSocket) (net : outbox) :
  Manager.broadcast broken message [] active net =
  ConnectionManager.broadcast broken message active net.
Proof.
  unfold Manager.broadcast, ConnectionManager.broadcast. simpl.
  rewrite drop_0.
  by destruct (ConnectionManager.send_loop broken message active [] net).
Qed.

(** C8: [broadcast] delivers the message to every registered observer.
    With three observers 1, 2 and 3 registered in this order, the peer of 1
    gone, and the endpoint of 1 unregistering it while the send to 1 is
    suspended, the loop goes on at the second entry of the list that is
    left, which is 3: observer 2, registered all along and reachable,
    receives nothing. *)
Theorem broadcast_skips_observer_on_concurrent_disconnect :
  Manager.broadcast (λ c, bool_decide (c = 1)) "beat" [[Unregisters 1]]
    [1; 2; 3] [] = Ok ([2; 3], [(3, "beat")]) ∧
  2 ∈ [1; 2; 3] ∧
  2 ∈ [2; 3] ∧
  bool_decide (2 = 1) = false ∧
  ((2, "beat") : WebSocket * string) ∉ [((3, "beat") : WebSocket * string)].
Proof.
  split; [reflexivity |].
  split; [apply list_elem_of_further, list_elem_of_here |].
  split; [apply list_elem_of_here |].
  split; [reflexivity |].
  intros Hin. apply list_elem_of_singleton in Hin. discriminate.
Qed.

(** C9: [end_session] for a device without an active session returns
    "nothing to save" ([None]) without raising and leaves the registry as it
    was. *)
Theorem end_session_unknown_device
    (now now_end : Z) (dev : string) (m : gmap string session) :
  m !! dev = None →
  SessionManager.end_session now now_end dev m = Ok (m, None).
Proof. apply end_session_absent. Qed.

Lemma end_session_unknown_device_witness :
  SessionManager.end_session 9000000 9000001 "ESP32_002"
    {[ "ESP32_001" := session_of (0%Z, []) ]}
  = Ok ({[ "ESP32_001" := session_of (0%Z, []) ]}, None).
Proof.
  apply (end_session_unknown_device 9000000 9000001 "ESP32_002").
  reflexivity.
Defined.



(** * Further properties of the session registry *)

Lemma Qpositive_true (x : Q) : Qpositive x = true → (0 < x)%Q.
Proof.
  unfold Qpositive.
  destruct (Qcompare_spec 0 x) as [?|Hlt|?]; [done | done | done].
Qed.

(** Every session of a registry reached from the empty one is the session of
    a recorded history. *)
Lemma reachable_session (ops : list op) (m : gmap string session)
    (dev : string) (s : session) :
  run ops ∅ = Ok m → m !! dev = Some s →
  ∃ start bs, history ops !! dev = Some (start, bs) ∧
              s = session_of (start, bs).
Proof.
  rewrite run_history. intros [= <-]. rewrite lookup_fmap.
  destruct (history ops !! dev) as [[start bs]|]; [| done].
  intros [= <-]. eauto.
Qed.

(** The summary that [end_session] builds, field by field. *)
Lemma end_session_summary now now_end dev (m : gmap string session) s :
  m !! dev = Some s →
  bpm_values s ≠ [] →
  beat_count s ≠ 0%Z →
  ∃ lo hi,
    py_min (bpm_values s) = Ok lo ∧
    py_max (bpm_values s) = Ok hi ∧
    SessionManager.end_session now now_end dev m =
    Ok (delete dev m,
        Some {| device_id := dev;
                session_start := start_time s;
                session_end := now_end;
                duration_seconds := timedelta_seconds now (start_time s);
                total_beats := beat_count s;
                avg_bpm := py_round (arithmetic_mean (bpm_values s)) 2;
                min_bpm := py_round lo 2;
                max_bpm := py_round hi 2;
                avg_ir_value :=
                  match ir_values s with
                  | [] => 0%Q
                  | _ => py_round
                           (arithmetic_mean (inject_Z <$> ir_values s)) 2
                  end;
                signal_quality :=
                  py_round
                    match ir_values s with
                    | [] => 0%Q
                    | _ => (inject_Z (Z.of_nat
                              (length (filter (λ ir, (50000 < ir)%Z)
                                         (ir_values s))))
                            / inject_Z (Z.of_nat (length (ir_values s)))
                            * 100)%Q
                    end 2;
                waveform_sample := waveform_samples s |}).
Proof.
  intros Hs Hbpm Hcount. unfold SessionManager.end_session, getitem.
  rewrite decide_False by congruence.
  rewrite Hs. simpl. rewrite decide_False by tauto.
  destruct (py_min_nonempty _ Hbpm) as [lo Hlo].
  destruct (py_max_nonempty _ Hbpm) as [hi Hhi].
  rewrite (statistics_mean_nonempty _ Hbpm), Hlo, Hhi. simpl.
  exists lo, hi. do 2 (split; [done |]).
  by destruct (ir_values s) as [|i irs].
Qed.

(** Whether [end_session] returns a summary is decided by the guard. *)
Lemma end_session_some now now_end dev (m m' : gmap string session) sm :
  SessionManager.end_session now now_end dev m = Ok (m', Some sm) →
  ∃ s, m !! dev = Some s ∧ bpm_values s ≠ [] ∧ beat_count s ≠ 0%Z ∧
       m' = delete dev m.
Proof.
  intros Hend. destruct (m !! dev) as [s|] eqn:Hs.
  - exists s. split; [done |].
    destruct (decide (bpm_values s = [] ∨ beat_count s = 0%Z)) as [He|Hne].
    { rewrite (end_session_no_data _ _ _ _ _ Hs He) in Hend. discriminate. }
    destruct (end_session_summary now now_end dev m s Hs)
      as (lo & hi & _ & _ & Hrun); [tauto | tauto |].
    rewrite Hrun in Hend. injection Hend as <- _. tauto.
  - rewrite end_session_absent in Hend by done. discriminate.
Qed.

Lemma add_beat_total now_start now_sample dev bpm ir ac
    (m : gmap string session) :
  ∃ m', SessionManager.add_beat now_start now_sample dev bpm ir ac m = Ok m' ∧
        is_Some (m' !! dev) ∧
        ∀ dev', dev' ≠ dev → m' !! dev' = m !! dev'.
Proof.
  destruct (m !! dev) as [s|] eqn:Hs.
  - rewrite (add_beat_present _ _ _ _ _ _ _ _ Hs).
    eexists. split; [done |]. split; [by rewrite lookup_insert_eq |].
    intros dev' Hne. by rewrite lookup_insert_ne.
  - rewrite add_beat_absent by done.
    erewrite add_beat_present by (simpl; apply lookup_insert_eq).
    eexists. split; [done |]. split; [by rewrite lookup_insert_eq |].
    intros dev' Hne. simpl. by rewrite !lookup_insert_ne.
Qed.

(** X1: an operation for one device that returns leaves the session of
    every other device exactly as it was. *)
Theorem exec_other_devices_untouched
    (o : op) (m m' : gmap string session) (dev : string) :
  op_device o ≠ dev →
  exec o m = Ok m' →
  m' !! dev = m !! dev.
Proof.
  intros Hdev.
  destruct o as [now d|t0 t1 d bpm ir ac|now d|now now_end d]; simpl in *.
  - intros [= <-]. by rewrite lookup_insert_ne.
  - destruct (add_beat_total t0 t1 d bpm ir ac m) as (m1 & -> & _ & Hother).
    intros [= <-]. by apply Hother.
  - destruct (SessionManager.get_session_info now d m); simpl; [| done].
    by intros [= <-].
  - destruct (end_session_total now now_end d m) as (m1 & r & -> & _ & Hother).
    simpl. intros [= <-]. by apply Hother.
Qed.

Lemma exec_other_devices_untouched_witness :
  (delete "A" ({[ "A" := session_of (0%Z, []); "B" := session_of (5%Z, []) ]}
                 : gmap string session)) !! "B" =
  ({[ "A" := session_of (0%Z, []); "B" := session_of (5%Z, []) ]}
     : gmap string session) !! "B".
Proof.
  apply (exec_other_devices_untouched (EndSession 9000000 9000001 "A")).
  - discriminate.
  - vm_compute. reflexivity.
Defined.

(** X2: in every registry reached from the empty one, the rate buffer of a
    session holds at most 1000 values, all strictly positive, the amplitude
    buffer holds one value per beat up to 1000, and the beat count is not
    negative. *)
Theorem reachable_buffers_bounded
    (ops : list op) (m : gmap string session) (dev : string) (s : session) :
  run ops ∅ = Ok m →
  m !! dev = Some s →
  Forall (λ v, (0 < v)%Q) (bpm_values s) ∧
  length (bpm_values s) ≤ 1000 ∧
  (0 ≤ beat_count s)%Z ∧
  length (ir_values s) = 1000 `min` Z.to_nat (beat_count s) ∧
  length (bpm_values s) ≤ length (ir_values s).
Proof.
  intros Hrun Hs.
  destruct (reachable_session _ _ _ _ Hrun Hs) as (start & bs & _ & ->).
  unfold session_of.
  cbn [fst snd bpm_values ir_values beat_count waveform_samples].
  rewrite !last_n_length, length_fmap, Nat2Z.id.
  assert (length (admitted bs) ≤ length bs) as Hlen.
  { unfold admitted. etrans; [apply List.filter_length_le |].
    by rewrite length_fmap. }
  split; [| lia].
  apply Forall_drop, Forall_forall. intros v Hv.
  apply list_elem_of_In, List.filter_In in Hv as [_ Hv].
  by apply Qpositive_true.
Qed.

Lemma reachable_buffers_bounded_witness :
  ∃ m s,
    run [AddBeat 1 2 "A" 60 60000 5; AddBeat 3 4 "A" (-3) 40000 6] ∅ = Ok m ∧
    m !! "A" = Some s ∧
    Forall (λ v, (0 < v)%Q) (bpm_values s) ∧
    length (bpm_values s) ≤ 1000 ∧
    (0 ≤ beat_count s)%Z ∧
    length (ir_values s) = 1000 `min` Z.to_nat (beat_count s) ∧
    length (bpm_values s) ≤ length (ir_values s).
Proof.
  eexists _, _. split; [apply run_history |].
  split; [vm_compute; reflexivity |].
  eapply (reachable_buffers_bounded
            [AddBeat 1 2 "A" 60 60000 5; AddBeat 3 4 "A" (-3) 40000 6]
            _ "A").
  - apply run_history.
  - vm_compute. reflexivity.
Defined.

(** One capture per ten beats, the [i]-th being taken at beat [10 (i + 1)]. *)
Lemma captures_shape (bs : list beat) :
  length (captures bs) = length bs `div` 10 ∧
  ∀ i, captures bs !! i = capture (10 * S i) <$> bs !! (10 * i + 9).
Proof.
  induction bs as [|b bs [IHlen IHlook]] using rev_ind; [done |].
  rewrite captures_snoc, !length_app. simpl length.
  assert (∀ i, i < length bs → (bs ++ [b]) !! i = bs !! i) as Hold
    by (intros; by apply lookup_app_l).
  case_decide as Hmod.
  - assert (S (length bs) = 10 * S (length bs `div` 10)) as Hten.
    { pose proof (Nat.div_mod_eq (length bs) 10).
      pose proof (Nat.mod_upper_bound (length bs) 10).
      assert (Z.of_nat (S (length bs)) `mod` 10 =
              Z.of_nat (S (length bs) `mod` 10))%Z as Hz
        by (by rewrite Nat2Z.inj_mod).
      rewrite Hz in Hmod.
      pose proof (Nat.div_mod_eq (S (length bs)) 10).
      pose proof (Nat.mod_upper_bound (S (length bs)) 10).
      assert (S (length bs) `div` 10 = S (length bs `div` 10)) by lia.
      lia. }
    split.
    + replace (length bs + 1) with (S (length bs `div` 10) * 10) by lia.
      rewrite Nat.div_mul by done. rewrite IHlen. simpl length. lia.
    + intros i.
      destruct (decide (i < length bs `div` 10)) as [Hlt|Hge].
      * rewrite lookup_app_l by lia. rewrite Hold by lia. apply IHlook.
      * rewrite lookup_app_r by lia. rewrite IHlen.
        destruct (decide (i = length bs `div` 10)) as [->|Hne].
        -- rewrite Nat.sub_diag.
           replace (10 * (length bs `div` 10) + 9) with (length bs) by lia.
           rewrite list_lookup_middle by done. rewrite <- Hten. reflexivity.
        -- rewrite !lookup_ge_None_2; [done | |].
           ++ rewrite length_app. simpl length. lia.
           ++ simpl length. lia.
  - assert (S (length bs) `mod` 10 ≠ 0) as Hnat.
    { intros Hzero. apply Hmod. change 10%Z with (Z.of_nat 10).
      by rewrite <- Nat2Z.inj_mod, Hzero. }
    pose proof (Nat.div_mod_eq (length bs) 10).
    pose proof (Nat.mod_upper_bound (length bs) 10).
    pose proof (Nat.div_mod_eq (S (length bs)) 10).
    pose proof (Nat.mod_upper_bound (S (length bs)) 10).
    rewrite app_nil_r. split.
    + rewrite IHlen. replace (length bs + 1) with (S (length bs)) by lia.
      simpl length. lia.
    + intros i. rewrite IHlook.
      destruct (decide (10 * i + 9 < length bs)) as [Hlt|Hge].
      * by rewrite Hold.
      * rewrite !lookup_ge_None_2; [done | | lia].
        rewrite length_app. simpl length. lia.
Qed.

(** X3: in every registry reached from the empty one, a session with [n]
    beats holds the smaller of 500 and [n / 10] waveform samples, and their
    beat numbers are the last multiples of ten up to [n], in ascending
    order. *)
Theorem reachable_waveform_shape
    (ops : list op) (m : gmap string session) (dev : string) (s : session) :
  run ops ∅ = Ok m →
  m !! dev = Some s →
  length (waveform_samples s) = 500 `min` Z.to_nat (beat_count s `div` 10) ∧
  ∀ i smp,
    waveform_samples s !! i = Some smp →
    beat_number smp =
    (10 * (beat_count s `div` 10 - Z.of_nat (length (waveform_samples s))
           + Z.of_nat i + 1))%Z.
Proof.
  intros Hrun Hs.
  destruct (reachable_session _ _ _ _ Hrun Hs) as (start & bs & _ & ->).
  unfold session_of.
  cbn [fst snd bpm_values ir_values beat_count waveform_samples].
  destruct (captures_shape bs) as [Hlen Hlook].
  assert (Z.of_nat (length bs) `div` 10 = Z.of_nat (length (captures bs)))%Z
    as Hdiv by (rewrite Hlen; by rewrite Nat2Z.inj_div).
  rewrite last_n_length, Hdiv, Nat2Z.id. split; [done |].
  intros i smp. unfold last_n. rewrite lookup_drop, Hlook.
  destruct (bs !! _) as [b|]; [| done]. intros [= <-].
  unfold capture. cbn [beat_number]. lia.
Qed.

Lemma reachable_waveform_shape_witness :
  ∃ m s,
    run (replicate 32 (AddBeat 1 2 "A" 60 60000 5)) ∅ = Ok m ∧
    m !! "A" = Some s ∧
    length (waveform_samples s) = 500 `min` Z.to_nat (beat_count s `div` 10) ∧
    beat_number <$> waveform_samples s = [10; 20; 30]%Z.
Proof.
  eexists _, _. split; [apply run_history |].
  split; [vm_compute; reflexivity |].
  split; [| vm_compute; reflexivity].
  eapply (reachable_waveform_shape
            (replicate 32 (AddBeat 1 2 "A" 60 60000 5)) _ "A").
  - apply run_history.
  - vm_compute. reflexivity.
Defined.

(** A summary that [end_session] returned is the one built from the session
    that the device had. *)
Lemma end_session_inv now now_end dev (m m' : gmap string session) sm :
  SessionManager.end_session now now_end dev m = Ok (m', Some sm) →
  ∃ s lo hi,
    m !! dev = Some s ∧ bpm_values s ≠ [] ∧ beat_count s ≠ 0%Z ∧
    py_min (bpm_values s) = Ok lo ∧ py_max (bpm_values s) = Ok hi ∧
    m' = delete dev m ∧
    device_id sm = dev ∧
    session_start sm = start_time s ∧
    session_end sm = now_end ∧
    duration_seconds sm = timedelta_seconds now (start_time s) ∧
    total_beats sm = beat_count s ∧
    avg_bpm sm = py_round (arithmetic_mean (bpm_values s)) 2 ∧
    min_bpm sm = py_round lo 2 ∧
    max_bpm sm = py_round hi 2 ∧
    avg_ir_value sm =
      match ir_values s with
      | [] => 0%Q
      | _ => py_round (arithmetic_mean (inject_Z <$> ir_values s)) 2
      end ∧
    signal_quality sm =
      py_round
        match ir_values s with
        | [] => 0%Q
        | _ => (inject_Z (Z.of_nat
                  (length (filter (λ ir, (50000 < ir)%Z) (ir_values s))))
                / inject_Z (Z.of_nat (length (ir_values s))) * 100)%Q
        end 2 ∧
    waveform_sample sm = waveform_samples s.
Proof.
  intros Hend.
  destruct (end_session_some _ _ _ _ _ _ Hend) as (s & Hs & Hbpm & Hcount & ->).
  destruct (end_session_summary now now_end dev m s Hs Hbpm Hcount)
    as (lo & hi & Hlo & Hhi & Hrun).
  rewrite Hrun in Hend. injection Hend as <-.
  exists s, lo, hi. simpl. repeat (split; [done |]). done.
Qed.

(** X4: [start_session] for a device that has a session replaces it by an
    empty one: an [end_session] right afterwards finds nothing to save,
    whatever had been recorded before. *)
Theorem restart_discards_recorded_beats
    (now now' now_end : Z) (dev : string) (m : gmap string session) :
  SessionManager.end_session now' now_end dev
    (SessionManager.start_session now dev m).1 = Ok (delete dev m, None).
Proof.
  simpl. erewrite end_session_no_data.
  - by rewrite delete_insert_eq.
  - apply lookup_insert_eq.
  - by left.
Qed.

(** X5: a second [end_session] for the same device, with nothing in between,
    returns "nothing to save" and leaves the registry as the first left it. *)
Theorem end_session_twice
    (now now_end now' now_end' : Z) (dev : string)
    (m m' : gmap string session) (r : option summary) :
  SessionManager.end_session now now_end dev m = Ok (m', r) →
  SessionManager.end_session now' now_end' dev m' = Ok (m', None).
Proof.
  intros Hend. apply end_session_absent.
  destruct (end_session_total now now_end dev m) as (m1 & r1 & Hrun & Hdev & _).
  rewrite Hrun in Hend. by injection Hend as <- _.
Qed.

Lemma end_session_twice_witness :
  SessionManager.end_session 9000002 9000003 "A" (∅ : gmap string session) = Ok (∅, None).
Proof.
  apply (end_session_twice 9000000 9000001 9000002 9000003 "A"
           {[ "A" := session_of (0%Z, []) ]} ∅ None).
  vm_compute. reflexivity.
Defined.

(** X6: a summary returned for a session counts in [total_beats] every
    beat recorded since the start, whatever its rate and however many have
    left the 1000-entry buffers; it carries the device, the start time, the
    clock reading at the end and the retained waveform samples. *)
Theorem summary_fields_from_history
    (ops : list op) (dev : string) (start : Z) (bs : list beat)
    (now now_end : Z) (m m' : gmap string session) (sm : summary) :
  history ops !! dev = Some (start, bs) →
  run ops ∅ = Ok m →
  SessionManager.end_session now now_end dev m = Ok (m', Some sm) →
  device_id sm = dev ∧
  session_start sm = start ∧
  session_end sm = now_end ∧
  total_beats sm = Z.of_nat (length bs) ∧
  waveform_sample sm = last_n 500 (captures bs).
Proof.
  intros Hh Hrun Hend.
  destruct (end_session_inv _ _ _ _ _ _ Hend)
    as (s & lo & hi & Hs & _ & _ & _ & _ & _ & Hdev & Hstart & Hstop & _
        & Hbeats & _ & _ & _ & _ & _ & Hwave).
  destruct (reachable_session _ _ _ _ Hrun Hs) as (start' & bs' & Hh' & ->).
  rewrite Hh in Hh'. injection Hh' as <- <-.
  rewrite Hdev, Hstart, Hstop, Hbeats, Hwave. done.
Qed.

Lemma summary_fields_from_history_witness :
  ∃ m sm,
    run [StartSession 0 "A"; AddBeat 1 2 "A" 60 60000 5;
         AddBeat 3 4 "A" 0 40000 6; AddBeat 5 6 "A" 63 60000 6] ∅ = Ok m ∧
    SessionManager.end_session 7000000 7000001 "A" m =
      Ok (delete "A" m, Some sm) ∧
    device_id sm = "A" ∧
    session_start sm = 0%Z ∧
    session_end sm = 7000001%Z ∧
    total_beats sm = 3%Z.
Proof.
  eexists _, _. split; [apply run_history |].
  split; [vm_compute; reflexivity |].
  destruct (summary_fields_from_history
              [StartSession 0 "A"; AddBeat 1 2 "A" 60 60000 5;
               AddBeat 3 4 "A" 0 40000 6; AddBeat 5 6 "A" 63 60000 6]
              "A" 0
              [{| beat_bpm := 60; beat_ir := 60000;
                  beat_ac := 5; beat_time := 2 |};
               {| beat_bpm := 0; beat_ir := 40000;
                  beat_ac := 6; beat_time := 4 |};
               {| beat_bpm := 63; beat_ir := 60000;
                  beat_ac := 6; beat_time := 6 |}]
              7000000 7000001 _ _ _ eq_refl (run_history _)
              ltac:(vm_compute; reflexivity))
    as (Hdev & Hstart & Hstop & Hbeats & _).
  repeat (split; [assumption |]). exact Hbeats.
Defined.

Lemma timedelta_seconds_range (later earlier : Z) :
  (0 ≤ timedelta_seconds later earlier < 86400)%Z.
Proof. unfold timedelta_seconds. apply Z.mod_pos_bound. lia. Qed.

Lemma length_filter_all {A : Type} (P : A → Prop) `{∀ x, Decision (P x)}
    (l : list A) :
  Forall P l → length (filter P l) = length l.
Proof.
  induction 1 as [|x l Hx Hl IH]; [done |].
  rewrite filter_cons_True by done. simpl. by rewrite IH.
Qed.

Lemma length_filter_none {A : Type} (P : A → Prop) `{∀ x, Decision (P x)}
    (l : list A) :
  Forall (λ x, ¬ P x) l → length (filter P l) = 0.
Proof.
  induction 1 as [|x l Hx Hl IH]; [done |].
  by rewrite filter_cons_False.
Qed.

Lemma py_round_proper (x y : Q) (ndigits : nat) :
  (x == y)%Q → (py_round x ndigits == py_round y ndigits)%Q.
Proof.
  intros Hxy. apply Qle_antisym; apply py_round_mono; rewrite Hxy; apply Qle_refl.
Qed.

(** X7: the signal quality of a summary is 100 when every retained
    amplitude is above 50000 and 0 when none is; an amplitude of exactly
    50000 does not count as good. *)
Theorem signal_quality_extremes
    (now now_end : Z) (dev : string) (m m' : gmap string session)
    (s : session) (sm : summary) :
  m !! dev = Some s →
  SessionManager.end_session now now_end dev m = Ok (m', Some sm) →
  (ir_values s ≠ [] → Forall (λ ir, (50000 < ir)%Z) (ir_values s) →
   (signal_quality sm == 100)%Q) ∧
  (Forall (λ ir, (ir ≤ 50000)%Z) (ir_values s) →
   (signal_quality sm == 0)%Q).
Proof.
  intros Hs Hend.
  destruct (end_session_inv _ _ _ _ _ _ Hend)
    as (s' & lo & hi & Hs' & _ & _ & _ & _ & _ & _ & _ & _ & _ & _ & _ & _ & _
        & _ & Hquality & _).
  rewrite Hs in Hs'. injection Hs' as <-. rewrite Hquality. clear Hquality.
  split.
  - intros Hne Hall. rewrite (length_filter_all _ _ Hall).
    destruct (ir_values s) as [|i irs] eqn:Hir; [done |].
    transitivity (py_round 100 2); [| reflexivity].
    apply py_round_proper.
    pose proof (length_pos_Q (i :: irs) ltac:(done)) as Hpos.
    field. lra.
  - intros Hall.
    destruct (ir_values s) as [|i irs] eqn:Hir; [reflexivity |].
    rewrite length_filter_none by (eapply Forall_impl; [exact Hall | simpl; lia]).
    transitivity (py_round 0 2); [| reflexivity].
    apply py_round_proper.
    pose proof (length_pos_Q (i :: irs) ltac:(done)) as Hpos.
    change (inject_Z (Z.of_nat 0)) with 0%Q. field. lra.
Qed.

Lemma signal_quality_extremes_witness :
  ∃ m s sm,
    run [AddBeat 1 2 "A" 60 50000 5; AddBeat 3 4 "A" 61 49000 6] ∅ = Ok m ∧
    m !! "A" = Some s ∧
    SessionManager.end_session 7000000 7000001 "A" m =
      Ok (delete "A" m, Some sm) ∧
    (ir_values s ≠ [] → Forall (λ ir, (50000 < ir)%Z) (ir_values s) →
     (signal_quality sm == 100)%Q) ∧
    (Forall (λ ir, (ir ≤ 50000)%Z) (ir_values s) →
     (signal_quality sm == 0)%Q).
Proof.
  eexists _, _, _. split; [apply run_history |].
  split; [vm_compute; reflexivity |].
  split; [vm_compute; reflexivity |].
  eapply (signal_quality_extremes 7000000 7000001 "A"
            (session_of <$>
             history [AddBeat 1 2 "A" 60 50000 5; AddBeat 3 4 "A" 61 49000 6])).
  - vm_compute. reflexivity.
  - vm_compute. reflexivity.
Defined.

(** X8: the [duration_seconds] of a summary is the elapsed time in whole
    seconds modulo one day: it always lies between 0 and 86399, also when
    the clock reading precedes the start, and it is the elapsed time when
    that is less than a day. *)
Theorem summary_duration_modulo_a_day
    (now now_end : Z) (dev : string) (m m' : gmap string session)
    (sm : summary) :
  SessionManager.end_session now now_end dev m = Ok (m', Some sm) →
  (0 ≤ duration_seconds sm < 86400)%Z ∧
  duration_seconds sm =
    (((now - session_start sm) `div` 1000000) `mod` 86400)%Z ∧
  ((0 ≤ now - session_start sm < 86400 * 1000000)%Z →
   duration_seconds sm = ((now - session_start sm) `div` 1000000)%Z).
Proof.
  intros Hend.
  destruct (end_session_inv _ _ _ _ _ _ Hend)
    as (s & lo & hi & _ & _ & _ & _ & _ & _ & _ & Hstart & _ & Hdur & _).
  rewrite Hdur, Hstart.
  split; [apply timedelta_seconds_range |]. split; [done |].
  apply timedelta_seconds_within_a_day.
Qed.

Lemma summary_duration_modulo_a_day_witness :
  ∃ m sm,
    run [StartSession 5000000 "A"; AddBeat 1 2 "A" 60 60000 5] ∅ = Ok m ∧
    SessionManager.end_session 4000000 4000001 "A" m =
      Ok (delete "A" m, Some sm) ∧
    (0 ≤ duration_seconds sm < 86400)%Z ∧
    duration_seconds sm = 86399%Z.
Proof.
  eexists _, _. split; [apply run_history |].
  split; [vm_compute; reflexivity |].
  split; [| vm_compute; reflexivity].
  eapply (summary_duration_modulo_a_day 4000000 4000001 "A"
            (session_of <$>
             history [StartSession 5000000 "A"; AddBeat 1 2 "A" 60 60000 5])).
  vm_compute. reflexivity.
Defined.

(** X9: [get_session_info] returns [None] for a device without a session,
    and for a device with a session it returns, when it returns, an info:
    [None] is the answer exactly for the devices that have no session. *)
Theorem get_session_info_none_iff
    (now : Z) (dev : string) (m : gmap string session) :
  (m !! dev = None →
   SessionManager.get_session_info now dev m = Ok None) ∧
  (∀ r, SessionManager.get_session_info now dev m = Ok r →
        (r = None ↔ m !! dev = None)).
Proof.
  unfold SessionManager.get_session_info, getitem.
  case_decide as Hdev.
  - split; [done |]. by intros r [= <-].
  - split; [done |]. intros r.
    destruct (m !! dev) as [s|]; [| done]. simpl.
    destruct (bpm_values s) as [|v vs].
    + by intros [= <-].
    + destruct (statistics_mean (v :: vs)); simpl; [| done].
      by intros [= <-].
Qed.



Lemma reachable_rates_positive
    (ops : list op) (m : gmap string session) (dev : string) (s : session) :
  run ops ∅ = Ok m → m !! dev = Some s →
  Forall (λ v, (0 < v)%Q) (bpm_values s) ∧ (0 ≤ beat_count s)%Z.
Proof.
  intros Hrun Hs.
  destruct (reachable_session _ _ _ _ Hrun Hs) as (start & bs & _ & ->).
  unfold session_of. cbn [fst snd bpm_values beat_count].
  split; [| lia].
  apply Forall_drop, Forall_forall. intros v Hv.
  apply list_elem_of_In, List.filter_In in Hv as [_ Hv].
  by apply Qpositive_true.
Qed.

Lemma fold_min_elem (l : list Q) (acc : Q) :
  fold_left (λ acc y, if Qlt_le_dec y acc then y else acc) l acc ∈ acc :: l.
Proof.
  revert acc. induction l as [|y l IH]; intros acc; simpl.
  - apply list_elem_of_here.
  - destruct (Qlt_le_dec y acc).
    + apply list_elem_of_further, IH.
    + specialize (IH acc). apply elem_of_cons in IH as [->|IH].
      * apply list_elem_of_here.
      * by do 2 apply list_elem_of_further.
Qed.

Lemma py_min_elem (l : list Q) (lo : Q) : py_min l = Ok lo → lo ∈ l.
Proof. destruct l; [done |]. intros [= <-]. apply fold_min_elem. Qed.

(** X12: in a summary returned on a registry reached from the empty one the
    reported minimum, average and maximum rates are not negative. *)
Theorem summary_rates_nonnegative
    (ops : list op) (m m' : gmap string session)
    (now now_end : Z) (dev : string) (sm : summary) :
  run ops ∅ = Ok m →
  SessionManager.end_session now now_end dev m = Ok (m', Some sm) →
  (0 <= min_bpm sm)%Q ∧ (0 <= avg_bpm sm)%Q ∧ (0 <= max_bpm sm)%Q.
Proof.
  intros Hrun Hend.
  destruct (end_session_inv _ _ _ _ _ _ Hend)
    as (s & lo & hi & Hs & _ & _ & Hlo & Hhi & _ & _ & _ & _ & _ & _ & Havg
        & Hmin & Hmax & _).
  destruct (reachable_rates_positive ops m dev s Hrun Hs) as [Hpos _].
  assert (0 <= py_round lo 2)%Q as Hmin0.
  { apply (Qle_trans _ (py_round 0 2)); [by vm_compute |].
    apply py_round_mono, Qlt_le_weak.
    rewrite Forall_forall in Hpos. by apply Hpos, py_min_elem. }
  assert (py_round lo 2 <= py_round (arithmetic_mean (bpm_values s)) 2)%Q
    as Hmean by (apply py_round_mono, py_min_le_mean, Hlo).
  assert (py_round (arithmetic_mean (bpm_values s)) 2 <= py_round hi 2)%Q
    as Hmax' by (apply py_round_mono, mean_le_py_max, Hhi).
  rewrite Hmin, Havg, Hmax. repeat split; lra.
Qed.

Lemma summary_rates_nonnegative_witness :
  ∃ m sm,
    run [AddBeat 1 2 "A" (1 # 1000) 60000 5] ∅ = Ok m ∧
    SessionManager.end_session 7000000 7000001 "A" m =
      Ok (delete "A" m, Some sm) ∧
    ((0 <= min_bpm sm)%Q ∧ (0 <= avg_bpm sm)%Q ∧ (0 <= max_bpm sm)%Q) ∧
    (avg_bpm sm == 0)%Q.
Proof.
  eexists _, _. split; [apply run_history |].
  split; [vm_compute; reflexivity |].
  split; [| by vm_compute].
  eapply (summary_rates_nonnegative
            [AddBeat 1 2 "A" (1 # 1000) 60000 5] _ _ 7000000 7000001 "A").
  - apply run_history.
  - vm_compute. reflexivity.
Defined.

(** * Further properties of the connection list *)

(** What [disconnect] returns: the list without the first entry of the
    connection, the list itself if there is none. *)
Lemma disconnect_inv (websocket : WebSocket) (l : list WebSocket) :
  ((websocket ∉ l) ∧ ConnectionManager.disconnect websocket l = Ok l) ∨
  (∃ pre post, l = pre ++ websocket :: post ∧ (websocket ∉ pre) ∧
               ConnectionManager.disconnect websocket l = Ok (pre ++ post)).
Proof.
  destruct (decide (websocket ∈ l)) as [Hin|Hnot].
  - right. apply list_elem_of_split_l in Hin as (pre & post & -> & Hpre).
    exists pre, post. split; [done |]. split; [done |].
    by apply disconnect_first.
  - left. split; [done |]. by apply disconnect_absent.
Qed.

(** X13: registering a connection that is not listed and unregistering it
    again gives back the connection list as it was. *)
Theorem connect_disconnect_round_trip
    (websocket : WebSocket) (active_connections : list WebSocket) :
  websocket ∉ active_connections →
  ConnectionManager.disconnect websocket
    (ConnectionManager.connect websocket active_connections) =
  Ok active_connections.
Proof.
  intros Hnew. unfold ConnectionManager.connect.
  rewrite (disconnect_first websocket active_connections []) by done.
  by rewrite app_nil_r.
Qed.

Lemma connect_disconnect_round_trip_witness :
  ConnectionManager.disconnect 4 (ConnectionManager.connect 4 [1; 2; 3]) =
  Ok [1; 2; 3].
Proof.
  apply (connect_disconnect_round_trip 4 [1; 2; 3]).
  intros Hin. by repeat (apply elem_of_cons in Hin as [Hin|Hin]; [done |]);
    apply elem_of_nil in Hin.
Defined.

(** X14: [disconnect] never raises.  For a websocket that is not listed it
    returns the connection list as it is; otherwise it takes out the first
    entry of the websocket and that entry only, keeping every other entry
    in its place and order. *)
Theorem disconnect_removes_first_entry
    (websocket : WebSocket) (active_connections : list WebSocket) :
  ((websocket ∉ active_connections) ∧
   ConnectionManager.disconnect websocket active_connections =
     Ok active_connections) ∨
  (∃ pre post,
     active_connections = pre ++ websocket :: post ∧
     (websocket ∉ pre) ∧
     ConnectionManager.disconnect websocket active_connections =
       Ok (pre ++ post)).
Proof.
  destruct (decide (websocket ∈ active_connections)) as [Hin|Hnot].
  - right. apply list_elem_of_split_l in Hin as (pre & post & -> & Hpre).
    exists pre, post. split; [done |]. split; [done |].
    unfold ConnectionManager.disconnect.
    rewrite decide_True by set_solver. by apply list_remove_first.
  - left. split; [done |].
    unfold ConnectionManager.disconnect. by rewrite decide_False.
Qed.

Lemma disconnect_loop_NoDup (disconnected l l' : list WebSocket) :
  NoDup l → ConnectionManager.disconnect_loop disconnected l = Ok l' →
  NoDup l'.
Proof.
  revert l. induction disconnected as [|c rest IH]; intros l Hl; simpl.
  - by intros [= <-].
  - destruct (disconnect_inv c l) as [[_ ->]|(pre & post & -> & _ & ->)];
      simpl; apply IH; [done |].
    apply NoDup_app in Hl as (Hpre & Hdisj & Hpost).
    apply NoDup_cons in Hpost as [_ Hpost].
    apply NoDup_app. split; [done |]. split; [| done].
    intros x Hx Hin. apply (Hdisj x Hx). by apply list_elem_of_further.
Qed.

(** X15: on a connection list without duplicates, which is what one
    [connect] per websocket gives, the list stays without duplicates under
    [connect] of a new connection, [disconnect] and [broadcast], and after
    [disconnect] the connection is no longer listed. *)
Theorem connections_without_duplicates
    (websocket : WebSocket) (active_connections : list WebSocket) :
  NoDup active_connections →
  (websocket ∉ active_connections →
   NoDup (ConnectionManager.connect websocket active_connections)) ∧
  (∃ active',
     ConnectionManager.disconnect websocket active_connections = Ok active' ∧
     NoDup active' ∧ websocket ∉ active') ∧
  (∀ broken message net,
     ∃ active' net',
       ConnectionManager.broadcast broken message active_connections net =
         Ok (active', net') ∧
       NoDup active').
Proof.
  intros Hnodup. split; [| split].
  - intros Hnew. unfold ConnectionManager.connect.
    apply NoDup_app. split; [done |]. split; [| apply NoDup_singleton].
    intros x Hx Hin. apply list_elem_of_singleton in Hin. by subst.
  - destruct (disconnect_inv websocket active_connections)
      as [[Hnot Hrun]|(pre & post & -> & Hpre & Hrun)].
    + by exists active_connections.
    + exists (pre ++ post). split; [done |].
      apply NoDup_app in Hnodup as (Hnpre & Hdisj & Hnpost).
      apply NoDup_cons in Hnpost as [Hpost Hnpost].
      split.
      * apply NoDup_app. split; [done |]. split; [| done].
        intros x Hx Hin. apply (Hdisj x Hx). by apply list_elem_of_further.
      * intros Hin. apply elem_of_app in Hin as [Hin|Hin]; done.
  - intros broken message net. rewrite broadcast_spec.
    eexists _, _. split; [done |].
    assert (List.filter (λ c, negb (broken c)) active_connections
            `sublist_of` active_connections) as Hsub.
    { clear Hnodup. induction active_connections as [|c l IH]; [done |].
      simpl. destruct (negb (broken c)); by constructor. }
    by eapply sublist_NoDup.
Qed.

Lemma connections_without_duplicates_witness :
  ∃ active',
    ConnectionManager.disconnect 2 [1; 2; 3] = Ok active' ∧
    NoDup active' ∧ 2 ∉ active'.
Proof.
  apply (connections_without_duplicates 2 [1; 2; 3]).
  repeat (apply NoDup_cons; split;
          [intros Hin;
           by repeat (apply elem_of_cons in Hin as [Hin|Hin]; [done |]);
             apply elem_of_nil in Hin |]).
  apply NoDup_nil. done.
Defined.

(** * Properties of the websocket endpoint *)

(** X16: a text frame that is not a JSON object, or whose type is none of
    [session_start], [heartbeat], [session_end] and [get_session_info],
    changes nothing: not the registry, the connection list, the table or the
    device bound to the connection, and nothing is sent. *)
Theorem unrecognised_frames_ignored
    (dumps : payload → string) (broken : WebSocket → bool)
    (commit : option Z) (now now' : Z) (websocket : WebSocket)
    (device_id : option string) (data : frame) (sv : server) :
  (∀ json_data, data = Json json_data →
     event_type json_data ≠ Some "session_start" ∧
     event_type json_data ≠ Some "heartbeat" ∧
     event_type json_data ≠ Some "session_end" ∧
     event_type json_data ≠ Some "get_session_info") →
  websocket_receive dumps broken commit now now' websocket device_id data sv
  = (sv, device_id).
Proof.
  intros Htype. destruct data as [|json_data]; [done |].
  destruct (Htype json_data eq_refl) as (H1 & H2 & H3 & H4).
  unfold websocket_receive. by rewrite !decide_False.
Qed.

Lemma unrecognised_frames_ignored_witness :
  websocket_receive (λ _, "json") (λ _, false) (Some 1%Z) 5 6 3 (Some "A")
    (Json {| event_type := Some "ping"; event_device_id := Some "B";
             event_bpm := None; event_ir := None; event_ac := None |})
    (state initial)
  = (state initial, Some "A").
Proof.
  apply unrecognised_frames_ignored.
  intros json_data [= <-]. simpl. repeat split; discriminate.
Defined.

(** X18: when the [end_session] of a [session_end] frame returns, the
    device is absent from the registry afterwards.  A row is added to the
    table, and a [session_saved] reply with its identifier sent to the
    sender, only when [end_session] returned a summary and the commit went
    through; when the commit fails the summary is dropped with the session,
    and nothing is sent. *)
Theorem session_end_saves_or_drops
    (dumps : payload → string) (broken : WebSocket → bool)
    (commit : option Z) (now now' : Z) (websocket : WebSocket)
    (device_id : option string) (json_data : event) (sv : server)
    (m' : gmap string session) (r : option summary) :
  event_type json_data = Some "session_end" →
  SessionManager.end_session now now'
    (default "ESP32_001" (event_device_id json_data))
    (session_manager sv) = Ok (m', r) →
  ∃ sv',
    websocket_receive dumps broken commit now now' websocket device_id
      (Json json_data) sv =
      (sv', Some (default "ESP32_001" (event_device_id json_data))) ∧
    session_manager sv' = m' ∧
    m' !! default "ESP32_001" (event_device_id json_data) = None ∧
    manager sv' = manager sv ∧
    match r, commit with
    | Some sm, Some session_id =>
        heartbeat_sessions sv' = heartbeat_sessions sv ++ [(session_id, sm)] ∧
        network sv' =
          if broken websocket then network sv
          else network sv ++
               [(websocket,
                 dumps (SessionSaved session_id (total_beats sm) (avg_bpm sm)
                          (duration_seconds sm)))]
    | _, _ =>
        heartbeat_sessions sv' = heartbeat_sessions sv ∧
        network sv' = network sv
    end.
Proof.
  intros Htype Hend.
  assert (m' !! default "ESP32_001" (event_device_id json_data) = None)
    as Hdev.
  { destruct (end_session_total now now'
                (default "ESP32_001" (event_device_id json_data))
                (session_manager sv)) as (m1 & r1 & Hrun & Hgone & _).
    rewrite Hrun in Hend. by injection Hend as <- _. }
  unfold websocket_receive. rewrite Htype.
  rewrite !(decide_False (P := Some "session_end" = Some "session_start"))
    by discriminate.
  rewrite !(decide_False (P := Some "session_end" = Some "heartbeat"))
    by discriminate.
  rewrite decide_True by done. rewrite Hend.
  destruct r as [sm|]; [destruct commit as [session_id|] |].
  - simpl. unfold try_send, send_text. simpl.
    destruct (broken websocket); eexists; repeat split; done.
  - simpl. eexists. repeat split; done.
  - eexists. repeat split; done.
Qed.

Lemma session_end_saves_or_drops_witness :
  ∃ sv',
    websocket_receive (λ _, "saved") (λ _, false) (Some 4%Z) 7000000 7000001
      1 None
      (Json {| event_type := Some "session_end"; event_device_id := Some "A";
               event_bpm := None; event_ir := None; event_ac := None |})
      {| session_manager := {[ "A" := session_of (0%Z, []) ]};
         manager := [1]; network := []; heartbeat_sessions := [] |}
      = (sv', Some "A") ∧
    session_manager sv' = ∅ ∧
    (∅ : gmap string session) !! "A" = None ∧
    manager sv' = [1] ∧
    heartbeat_sessions sv' = [] ∧
    network sv' = [].
Proof.
  apply (session_end_saves_or_drops
           (λ _, "saved") (λ _, false) (Some 4%Z) 7000000 7000001 1 None
           {| event_type := Some "session_end"; event_device_id := Some "A";
              event_bpm := None; event_ir := None; event_ac := None |}
           {| session_manager := {[ "A" := session_of (0%Z, []) ]};
              manager := [1]; network := []; heartbeat_sessions := [] |}
           ∅ None).
  - reflexivity.
  - vm_compute. reflexivity.
Defined.

(** X19: when the clean-up after a connection went away returns, it has
    taken the first entry of the connection off the connection list and
    sent nothing; the session of the device last seen on the connection is
    gone, unless that device is the empty string, whose session is left in
    the registry like the sessions of all other devices. *)
Theorem disconnect_cleans_up
    (commit : option Z) (now now' : Z) (websocket : WebSocket)
    (device_id : option string) (sv sv' : server) :
  websocket_disconnect commit now now' websocket device_id sv = Ok sv' →
  ConnectionManager.disconnect websocket (manager sv) = Ok (manager sv') ∧
  network sv' = network sv ∧
  (∀ dev, device_id = Some dev → dev ≠ EmptyString →
          session_manager sv' !! dev = None) ∧
  (∀ dev, device_id ≠ Some dev →
          session_manager sv' !! dev = session_manager sv !! dev) ∧
  (device_id = Some EmptyString → session_manager sv' = session_manager sv).
Proof.
  destruct (disconnect_inv websocket (manager sv)) as [[_ Hdis]|Hdis].
  2: destruct Hdis as (pre & post & Hl & _ & Hdis).
  all: unfold websocket_disconnect.
  all: destruct device_id as [dev|]; simpl.
  all: try case_decide as Hguard; simpl.
  all: try (destruct (end_session_total now now' dev (session_manager sv))
              as (m' & r & Hend & Hgone & Hother); rewrite Hend; simpl;
            destruct r as [sm|]; simpl;
            try (destruct commit as [session_id|]; simpl)).
  all: rewrite Hdis; simpl.
  all: intros [= <-]; simpl.
  all: split; [done |]; split; [done |].
  all: repeat split.
  all: try (intros dev' [= <-]); try (intros dev' Hne); try done.
  all: try (intros; apply Hother; congruence).
  all: try (intros Hnonempty;
            destruct (session_manager sv !! dev) eqn:Hs; [| done];
            exfalso; apply Hguard; split; [done | congruence]).
  all: try (intros [= ->]; by destruct Hguard).
Qed.

Lemma disconnect_cleans_up_witness :
  ConnectionManager.disconnect 1 [1; 2] = Ok [2] ∧
  ([] : outbox) = [] ∧
  (∀ dev, Some "A" = Some dev → dev ≠ EmptyString →
          (∅ : gmap string session) !! dev = None).
Proof.
  destruct (disconnect_cleans_up None 7000000 7000001 1 (Some "A")
              {| session_manager := {[ "A" := session_of (0%Z, []) ]};
                 manager := [1; 2]; network := []; heartbeat_sessions := [] |}
              {| session_manager := ∅;
                 manager := [2]; network := []; heartbeat_sessions := [] |})
    as (Hdis & Hnet & Hgone & _).
  - vm_compute. reflexivity.
  - split; [exact Hdis |]. split; [exact Hnet | exact Hgone].
Defined.

(** ** The server as a whole *)

Lemma run_app (ops ops' : list op) (m : gmap string session) :
  run (ops ++ ops') m = (run ops m ≫= run ops').
Proof.
  revert m. induction ops as [|o ops IH]; intros m; simpl; [done |].
  destruct (exec o m) as [m1|e]; simpl; [apply IH | done].
Qed.

Lemma reachable_exec (o : op) (m m' : gmap string session) :
  (∃ ops, run ops ∅ = Ok m) → exec o m = Ok m' → ∃ ops, run ops ∅ = Ok m'.
Proof.
  intros [ops Hrun] Hexec. exists (ops ++ [o]).
  rewrite run_app, Hrun. simpl. by rewrite Hexec.
Qed.

(** A summary returned on a reachable registry is well formed. *)
Lemma reachable_summary_well_formed
    (m m' : gmap string session) (now now_end : Z) (dev : string)
    (sm : summary) :
  (∃ ops, run ops ∅ = Ok m) →
  SessionManager.end_session now now_end dev m = Ok (m', Some sm) →
  well_formed sm.
Proof.
  intros [ops Hrun] Hend.
  destruct (end_session_inv _ _ _ _ _ _ Hend)
    as (s & lo & hi & Hs & Hbpm & Hcount & Hlo & Hhi & _ & _ & _ & _ & Hdur
        & Hbeats & Havg & Hmin & Hmax & _ & Hquality & _).
  destruct (reachable_rates_positive ops m dev s Hrun Hs) as [Hpos Hnonneg].
  unfold well_formed.
  rewrite Hbeats, Havg, Hmin, Hmax, Hquality, Hdur.
  split; [lia |]. split; [| split; [| split; [| split]]].
  - apply (Qle_trans _ (py_round 0 2)); [by vm_compute |].
    apply py_round_mono, Qlt_le_weak.
    rewrite Forall_forall in Hpos. by apply Hpos, py_min_elem.
  - apply py_round_mono, py_min_le_mean, Hlo.
  - apply py_round_mono, mean_le_py_max, Hhi.
  - apply py_round_quality_bounds.
    destruct (ir_values s) as [|i irs] eqn:Hir.
    + split; lra.
    + rewrite <- Hir. apply quality_ratio_bounds.
      * apply length_filter.
      * rewrite Hir. simpl. lia.
  - apply timedelta_seconds_range.
Qed.

(** What handling one frame does to the table, to the network and to the
    registry. *)
Lemma websocket_receive_effect
    (dumps : payload → string) (broken : WebSocket → bool)
    (commit : option Z) (now now' : Z) (websocket : WebSocket)
    (device_id : option string) (data : frame) (sv : server) :
  let sv' := (websocket_receive dumps broken commit now now' websocket
                device_id data sv).1 in
  heartbeat_sessions sv `prefix_of` heartbeat_sessions sv' ∧
  network sv `prefix_of` network sv' ∧
  ((∃ ops, run ops ∅ = Ok (session_manager sv)) →
   (∃ ops, run ops ∅ = Ok (session_manager sv')) ∧
   (Forall (λ row, well_formed row.2) (heartbeat_sessions sv) →
    Forall (λ row, well_formed row.2) (heartbeat_sessions sv'))).
Proof.
  unfold websocket_receive.
  destruct data as [|json_data]; [by simpl |].
  set (dev := default "ESP32_001" (event_device_id json_data)).
  case_decide as Hstart; [| case_decide as Hbeat;
    [| case_decide as Hend; [| case_decide as Hinfo]]].
  - unfold try_send, send_text. cbn -[SessionManager.start_session].
    destruct (broken websocket); cbn -[SessionManager.start_session].
    all: split; [done |]; split; [try done; by apply prefix_app_r |].
    all: intros Hreach; split; [| done].
    all: apply (reachable_exec (StartSession now dev) _ _ Hreach); done.
  - destruct (add_beat_total now now' dev
                (default 0%Q (event_bpm json_data))
                (default 0%Z (event_ir json_data))
                (default 0%Z (event_ac json_data))
                (session_manager sv)) as (m' & Hadd & _).
    rewrite Hadd, broadcast_spec. simpl.
    split; [done |]. split; [by apply prefix_app_r |].
    intros Hreach. split; [| done].
    by apply (reachable_exec
                (AddBeat now now' dev (default 0%Q (event_bpm json_data))
                   (default 0%Z (event_ir json_data))
                   (default 0%Z (event_ac json_data))) _ _ Hreach).
  - destruct (end_session_total now now' dev (session_manager sv))
      as (m' & r & Hrun & _).
    rewrite Hrun.
    assert ((∃ ops, run ops ∅ = Ok (session_manager sv)) →
            ∃ ops, run ops ∅ = Ok m') as Hreach'.
    { intros Hreach.
      apply (reachable_exec (EndSession now now' dev) _ _ Hreach).
      simpl. by rewrite Hrun. }
    destruct r as [sm|]; [destruct commit as [session_id|] |]; simpl.
    + unfold try_send, send_text. simpl. destruct (broken websocket); simpl.
      all: split; [by apply prefix_app_r |].
      all: split; [try done; by apply prefix_app_r |].
      all: intros Hreach; split; [by apply Hreach' |].
      all: intros Hrows; apply Forall_app; split; [done |].
      all: constructor; [| done]; simpl.
      all: by eapply reachable_summary_well_formed.
    + split; [done |]. split; [done |]. intros Hreach. split; [auto | done].
    + split; [done |]. split; [done |]. intros Hreach. split; [auto | done].
  - destruct (SessionManager.get_session_info now dev (session_manager sv))
      as [[info|]|e]; simpl.
    + unfold try_send, send_text. destruct (broken websocket); simpl.
      all: split; [done |]; split; [try done; by apply prefix_app_r |].
      all: done.
    + done.
    + done.
  - by simpl.
Qed.

(** What the clean-up does to the table, to the network and to the
    registry. *)
Lemma websocket_disconnect_effect
    (commit : option Z) (now now' : Z) (websocket : WebSocket)
    (device_id : option string) (sv : server) :
  ∃ sv',
    websocket_disconnect commit now now' websocket device_id sv = Ok sv' ∧
    heartbeat_sessions sv `prefix_of` heartbeat_sessions sv' ∧
    network sv = network sv' ∧
    ((∃ ops, run ops ∅ = Ok (session_manager sv)) →
     (∃ ops, run ops ∅ = Ok (session_manager sv')) ∧
     (Forall (λ row, well_formed row.2) (heartbeat_sessions sv) →
      Forall (λ row, well_formed row.2) (heartbeat_sessions sv'))).
Proof.
  unfold websocket_disconnect.
  assert (∀ sv1 : server, ∃ active',
            ConnectionManager.disconnect websocket (manager sv1) = Ok active')
    as Hdis.
  { intros sv1.
    destruct (disconnect_inv websocket (manager sv1))
      as [[_ ->]|(pre & post & _ & _ & ->)]; by eexists. }
  destruct device_id as [dev|]; [case_decide as Hguard |].
  - destruct (end_session_total now now' dev (session_manager sv))
      as (m' & r & Hrun & _).
    rewrite Hrun.
    assert ((∃ ops, run ops ∅ = Ok (session_manager sv)) →
            ∃ ops, run ops ∅ = Ok m') as Hreach'.
    { intros Hreach.
      apply (reachable_exec (EndSession now now' dev) _ _ Hreach).
      simpl. by rewrite Hrun. }
    destruct r as [sm|]; [destruct commit as [session_id|] |]; simpl.
    + match goal with
      | |- context [ConnectionManager.disconnect websocket ?l] =>
          destruct (Hdis {| session_manager := m'; manager := l;
                            network := network sv;
                            heartbeat_sessions := [] |})
            as [active' Hactive]; simpl in Hactive; rewrite Hactive
      end.
      simpl. eexists. split; [reflexivity |]. simpl.
      split; [by apply prefix_app_r |]. split; [done |].
      intros Hreach. split; [by apply Hreach' |].
      intros Hrows. apply Forall_app. split; [done |].
      constructor; [| done]. simpl.
      by eapply reachable_summary_well_formed.
    + destruct (Hdis sv) as [active' Hactive]. rewrite Hactive. simpl.
      eexists. split; [reflexivity |]. simpl.
      split; [done |]. split; [done |]. intros Hreach. split; [auto | done].
    + destruct (Hdis sv) as [active' Hactive]. rewrite Hactive. simpl.
      eexists. split; [reflexivity |]. simpl.
      split; [done |]. split; [done |]. intros Hreach. split; [auto | done].
  - simpl. destruct (Hdis sv) as [active' Hactive]. rewrite Hactive. simpl.
    eexists. split; [reflexivity |]. simpl. done.
  - simpl. destruct (Hdis sv) as [active' Hactive]. rewrite Hactive. simpl.
    eexists. split; [reflexivity |]. simpl. done.
Qed.

Lemma step_effect (dumps : payload → string) (i : input) (w : world) :
  ∃ w',
    step dumps i w = Ok w' ∧
    heartbeat_sessions (state w) `prefix_of` heartbeat_sessions (state w') ∧
    network (state w) `prefix_of` network (state w') ∧
    ((∃ ops, run ops ∅ = Ok (session_manager (state w))) →
     (∃ ops, run ops ∅ = Ok (session_manager (state w'))) ∧
     (Forall (λ row, well_formed row.2) (heartbeat_sessions (state w)) →
      Forall (λ row, well_formed row.2) (heartbeat_sessions (state w')))).
Proof.
  destruct i as [websocket|websocket broken commit now now' data
                 |websocket commit now now']; simpl.
  - eexists. split; [reflexivity |]. simpl. done.
  - destruct (device_ids w !! websocket) as [device_id|].
    + eexists. split; [reflexivity |]. simpl.
      apply websocket_receive_effect.
    + exists w. done.
  - destruct (device_ids w !! websocket) as [device_id|].
    + destruct (websocket_disconnect_effect commit now now' websocket
                  device_id (state w)) as (sv' & -> & Hrows & Hnet & Hinv).
      simpl. eexists. split; [reflexivity |]. simpl.
      split; [done |]. split; [by rewrite Hnet | done].
    + exists w. done.
Qed.

Lemma serve_effect (dumps : payload → string) (inputs : list input) (w : world) :
  ∃ w',
    serve dumps inputs w = Ok w' ∧
    heartbeat_sessions (state w) `prefix_of` heartbeat_sessions (state w') ∧
    network (state w) `prefix_of` network (state w') ∧
    ((∃ ops, run ops ∅ = Ok (session_manager (state w))) →
     (∃ ops, run ops ∅ = Ok (session_manager (state w'))) ∧
     (Forall (λ row, well_formed row.2) (heartbeat_sessions (state w)) →
      Forall (λ row, well_formed row.2) (heartbeat_sessions (state w')))).
Proof.
  revert w. induction inputs as [|i rest IH]; intros w; simpl.
  - exists w. done.
  - destruct (step_effect dumps i w) as (w1 & -> & Hrows1 & Hnet1 & Hinv1).
    destruct (IH w1) as (w2 & Hserve & Hrows2 & Hnet2 & Hinv2).
    exists w2. simpl. split; [done |].
    split; [by etrans |]. split; [by etrans |].
    intros Hreach. destruct (Hinv1 Hreach) as [Hreach1 Hwf1].
    destruct (Hinv2 Hreach1) as [Hreach2 Hwf2]. auto.
Qed.

(** X20: the endpoint only ever appends: whatever it serves and in
    whatever order, when the run returns the rows that the table held are
    still in place unchanged, and so is what the peers had received. *)
Theorem serve_only_appends
    (dumps : payload → string) (inputs : list input) (w w' : world) :
  serve dumps inputs w = Ok w' →
  heartbeat_sessions (state w) `prefix_of` heartbeat_sessions (state w') ∧
  network (state w) `prefix_of` network (state w').
Proof.
  intros Hrun.
  destruct (serve_effect dumps inputs w) as (w1 & Hserve & Hrows & Hnet & _).
  rewrite Hserve in Hrun. by injection Hrun as <-.
Qed.

Lemma serve_only_appends_witness :
  ∃ w,
    serve (λ _, "json")
      [Connect 1;
       Receive 1 (λ _, false) None 0 0
         (Json {| event_type := Some "heartbeat"; event_device_id := Some "A";
                  event_bpm := Some 72%Q; event_ir := Some 60000%Z;
                  event_ac := Some 5%Z |});
       Disconnect 1 (Some 17%Z) 3000000 3000001] initial = Ok w ∧
    heartbeat_sessions (state initial) `prefix_of`
      heartbeat_sessions (state w) ∧
    network (state initial) `prefix_of` network (state w).
Proof.
  eexists. split; [vm_compute; reflexivity |].
  eapply (serve_only_appends (λ _, "json")
      [Connect 1;
       Receive 1 (λ _, false) None 0 0
         (Json {| event_type := Some "heartbeat"; event_device_id := Some "A";
                  event_bpm := Some 72%Q; event_ir := Some 60000%Z;
                  event_ac := Some 5%Z |});
       Disconnect 1 (Some 17%Z) 3000000 3000001] initial).
  vm_compute. reflexivity.
Defined.

(** X21: every row that the endpoint has stored, starting from an empty
    server, is well formed: at least one beat, rates that are not negative
    with the average between minimum and maximum, a signal quality between 0
    and 100 and a duration between 0 and 86399 seconds. *)
Theorem stored_rows_well_formed
    (dumps : payload → string) (inputs : list input) (w : world) :
  serve dumps inputs initial = Ok w →
  Forall (λ row,
            (1 ≤ total_beats row.2)%Z ∧
            (0 <= min_bpm row.2)%Q ∧
            (min_bpm row.2 <= avg_bpm row.2)%Q ∧
            (avg_bpm row.2 <= max_bpm row.2)%Q ∧
            (0 <= signal_quality row.2 <= 100)%Q ∧
            (0 ≤ duration_seconds row.2 < 86400)%Z)
         (heartbeat_sessions (state w)).
Proof.
  intros Hserve.
  destruct (serve_effect dumps inputs initial) as (w' & Hrun & _ & _ & Hinv).
  rewrite Hrun in Hserve. injection Hserve as ->.
  destruct Hinv as [_ Hwf]; [by exists [] |].
  apply Hwf. constructor.
Qed.

Lemma stored_rows_well_formed_witness :
  ∃ w,
    serve (λ _, "json")
      [Connect 1;
       Receive 1 (λ _, false) None 0 0
         (Json {| event_type := Some "heartbeat"; event_device_id := Some "A";
                  event_bpm := Some 72%Q; event_ir := Some 60000%Z;
                  event_ac := Some 5%Z |});
       Disconnect 1 (Some 17%Z) 3000000 3000001] initial = Ok w ∧
    (fst <$> heartbeat_sessions (state w)) = [17%Z] ∧
    Forall (λ row,
              (1 ≤ total_beats row.2)%Z ∧
              (0 <= min_bpm row.2)%Q ∧
              (min_bpm row.2 <= avg_bpm row.2)%Q ∧
              (avg_bpm row.2 <= max_bpm row.2)%Q ∧
              (0 <= signal_quality row.2 <= 100)%Q ∧
              (0 ≤ duration_seconds row.2 < 86400)%Z)
           (heartbeat_sessions (state w)).
Proof.
  eexists. split; [vm_compute; reflexivity |].
  split; [vm_compute; reflexivity |].
  eapply (stored_rows_well_formed (λ _, "json")
      [Connect 1;
       Receive 1 (λ _, false) None 0 0
         (Json {| event_type := Some "heartbeat"; event_device_id := Some "A";
                  event_bpm := Some 72%Q; event_ir := Some 60000%Z;
                  event_ac := Some 5%Z |});
       Disconnect 1 (Some 17%Z) 3000000 3000001]).
  vm_compute. reflexivity.
Defined.

(** * Properties of the statistics endpoint *)

Lemma filter_nonzero_nil (l : list Q) :
  List.filter (λ b, negb (Qeq_bool b 0)) l = [] ↔ Forall (λ b, (b == 0)%Q) l.
Proof.
  induction l as [|b l IH]; simpl.
  - split; [constructor | done].
  - destruct (Qeq_bool b 0) eqn:Hb; simpl.
    + apply Qeq_bool_iff in Hb. rewrite IH. split.
      * by constructor.
      * by inversion 1.
    + split; [done |]. inversion 1 as [|? ? Hzero]. subst.
      apply Qeq_bool_iff in Hzero. congruence.
Qed.

Lemma get_stats_all_zero (sv : server) :
  heartbeat_sessions sv ≠ [] →
  Forall (λ row, (avg_bpm row.2 == 0)%Q) (heartbeat_sessions sv) →
  get_stats sv = Raise StatisticsError.
Proof.
  intros Hrows Hzero. unfold get_stats.
  assert (List.filter (λ b, negb (Qeq_bool b 0))
            ((λ row, avg_bpm row.2) <$> heartbeat_sessions sv) = []) as Hnil
    by (by rewrite filter_nonzero_nil, Forall_fmap).
  destruct (heartbeat_sessions sv) as [|row rows]; [done |].
  rewrite fmap_cons in *. by rewrite Hnil.
Qed.

(** X22: [get_stats] raises [StatisticsError] exactly when the table has
    rows and the average rate of every row is zero; with an empty table, or
    with one row whose average is not zero, it returns the counts of rows,
    of active sessions and of connections. *)
Theorem get_stats_raises_iff (sv : server) :
  (heartbeat_sessions sv ≠ [] ∧
   Forall (λ row, (avg_bpm row.2 == 0)%Q) (heartbeat_sessions sv) →
   get_stats sv = Raise StatisticsError) ∧
  (heartbeat_sessions sv = [] ∨
   ¬ Forall (λ row, (avg_bpm row.2 == 0)%Q) (heartbeat_sessions sv) →
   ∃ st, get_stats sv = Ok st ∧
         total_sessions st = Z.of_nat (length (heartbeat_sessions sv)) ∧
         stats_active_sessions st = Z.of_nat (size (session_manager sv)) ∧
         stats_active_connections st = Z.of_nat (length (manager sv))).
Proof.
  unfold get_stats.
  destruct (heartbeat_sessions sv) as [|row rows] eqn:Hrows.
  - split; [by intros [? _] |]. intros _. simpl.
    eexists. split; [reflexivity |]. done.
  - rewrite <- Hrows.
    assert (List.filter (λ b, negb (Qeq_bool b 0))
              ((λ row, avg_bpm row.2) <$> heartbeat_sessions sv) = [] ↔
            Forall (λ row, (avg_bpm row.2 == 0)%Q) (heartbeat_sessions sv))
      as Hnil by (by rewrite filter_nonzero_nil, Forall_fmap).
    assert (∃ b bs, (λ row, avg_bpm row.2) <$> heartbeat_sessions sv = b :: bs)
      as (b & bs & Hall) by (rewrite Hrows; simpl; eauto).
    split.
    + intros [_ Hzero]. apply Hnil in Hzero.
      rewrite Hall in *. by rewrite Hzero.
    + intros [Hempty|Hnonzero]; [by rewrite Hrows in Hempty |].
      rewrite Hall in *.
      destruct (List.filter _ (b :: bs)) as [|v vs] eqn:Hfilter.
      * exfalso. by apply Hnonzero, Hnil.
      * simpl. eexists. split; [reflexivity |]. done.
Qed.



Lemma py_round_small (x : Q) :
  (0 <= x)%Q → (x < 1 # 200)%Q → (py_round x 2 == 0)%Q.
Proof.
  intros H0 Hsmall. unfold py_round.
  change (inject_Z (10 ^ Z.of_nat 2)) with 100%Q.
  assert (round_half_even (x * 100) = 0%Z) as ->; [| reflexivity].
  pose proof (Qfloor_le (x * 100)) as Hlo.
  pose proof (Qlt_floor (x * 100)) as Hhi.
  assert (Qfloor (x * 100) = 0%Z) as Hfloor.
  { assert (inject_Z (Qfloor (x * 100)) < inject_Z 1)%Q as H1
      by (change (inject_Z 1) with 1%Q; lra).
    assert (inject_Z (-1) < inject_Z (Qfloor (x * 100) ))%Q as H2.
    { rewrite inject_Z_plus in Hhi. change (inject_Z 1) with 1%Q in Hhi.
      change (inject_Z (-1)) with (-1 # 1)%Q. lra. }
    rewrite <- Zlt_Qlt in H1, H2. lia. }
  unfold round_half_even. rewrite Hfloor.
  destruct (Qcompare_spec (x * 100 - inject_Z 0) (1 # 2)) as [He|Hl|Hg];
    [| done |].
  - exfalso. change (inject_Z 0) with 0%Q in He. lra.
  - exfalso. change (inject_Z 0) with 0%Q in Hg. lra.
Qed.

Lemma Qpositive_pos (x : Q) : (0 < x)%Q → Qpositive x = true.
Proof.
  intros H. unfold Qpositive.
  destruct (Qcompare_spec 0 x) as [He|Hlt|Hgt]; [| done |].
  - rewrite <- He in H. by apply Qlt_irrefl in H.
  - exfalso. apply (Qlt_irrefl 0). by apply (Qlt_trans _ x).
Qed.

(** X23: a session whose only beat has a rate between 0 and 0.005 is stored
    with an average of 0.00, and with that row alone in the table
    [get_stats] raises [StatisticsError]. *)
Theorem get_stats_fails_on_small_rates
    (dumps : payload → string) (broken : WebSocket → bool)
    (websocket : WebSocket) (dev : string) (bpm : Q) (ir ac : Z)
    (session_id now1 now1' now2 now2' : Z) :
  (0 < bpm)%Q → (bpm < 1 # 200)%Q →
  ∃ w sm,
    serve dumps
      [Connect websocket;
       Receive websocket broken None now1 now1'
         (Json {| event_type := Some "heartbeat";
                  event_device_id := Some dev;
                  event_bpm := Some bpm;
                  event_ir := Some ir;
                  event_ac := Some ac |});
       Receive websocket broken (Some session_id) now2 now2'
         (Json {| event_type := Some "session_end";
                  event_device_id := Some dev;
                  event_bpm := None; event_ir := None; event_ac := None |})]
      initial = Ok w ∧
    heartbeat_sessions (state w) = [(session_id, sm)] ∧
    (avg_bpm sm == 0)%Q ∧
    get_stats (state w) = Raise StatisticsError.
Proof.
  intros Hpos Hsmall.
  assert (SessionManager.add_beat now1 now1' dev bpm ir ac ∅ =
          Ok {[ dev := {| start_time := now1;
                          bpm_values := [bpm];
                          ir_values := [ir];
                          beat_count := 1;
                          waveform_samples := [] |} ]}) as Hadd.
  { rewrite add_beat_absent by apply lookup_empty.
    erewrite add_beat_present by (simpl; apply lookup_insert_eq).
    simpl. rewrite Qpositive_pos by done.
    by rewrite insert_insert_eq, insert_empty. }
  destruct (end_session_summary now2 now2' dev
              {[ dev := {| start_time := now1; bpm_values := [bpm];
                           ir_values := [ir]; beat_count := 1;
                           waveform_samples := [] |} ]} _
              (lookup_singleton_eq _ _))
    as (lo & hi & _ & _ & Hend); [done | done |].
  cbn [bpm_values start_time ir_values beat_count waveform_samples] in Hend.
  assert (py_round (arithmetic_mean [bpm]) 2 == 0)%Q as Havg.
  { assert (arithmetic_mean [bpm] == bpm)%Q as Hmean.
    { unfold arithmetic_mean. simpl.
      change (inject_Z (Z.of_nat 1)) with 1%Q. field. }
    apply py_round_small; rewrite Hmean; [by apply Qlt_le_weak | done]. }
  set (heartbeat := {| event_type := Some "heartbeat";
                       event_device_id := Some dev; event_bpm := Some bpm;
                       event_ir := Some ir; event_ac := Some ac |}).
  set (sv1 := {| session_manager := ∅; manager := [websocket]; network := [];
                 heartbeat_sessions := [] |}).
  assert (∃ sv2, websocket_receive dumps broken None now1 now1' websocket None
                   (Json heartbeat) sv1 = (sv2, Some dev) ∧
                 session_manager sv2 =
                   {[ dev := {| start_time := now1; bpm_values := [bpm];
                                ir_values := [ir]; beat_count := 1;
                                waveform_samples := [] |} ]} ∧
                 heartbeat_sessions sv2 = []) as (sv2 & Hsv2 & Hm2 & Hrows2).
  { unfold websocket_receive. simpl. rewrite Hadd, broadcast_spec.
    eexists. split; [reflexivity |]. done. }
  set (ending := {| event_type := Some "session_end";
                    event_device_id := Some dev; event_bpm := None;
                    event_ir := None; event_ac := None |}).
  assert (∃ sv3 sm, websocket_receive dumps broken (Some session_id) now2 now2'
                      websocket (Some dev) (Json ending) sv2 = (sv3, Some dev) ∧
                    heartbeat_sessions sv3 = [(session_id, sm)] ∧
                    (avg_bpm sm == 0)%Q) as (sv3 & sm & Hsv3 & Hrows3 & Hsm).
  { unfold websocket_receive. simpl. rewrite Hm2, Hend. simpl.
    unfold try_send, send_text. simpl. rewrite Hrows2.
    destruct (broken websocket); eexists _, _;
      (split; [reflexivity |]); simpl; (split; [reflexivity | exact Havg]). }
  exists {| state := sv3;
            device_ids := <[websocket := Some dev]>
                            (<[websocket := Some dev]>
                               (<[websocket := None]> ∅)) |}, sm.
  split; [| split; [done | split; [done |]]].
  - assert (step dumps (Receive websocket broken None now1 now1'
                          (Json heartbeat))
              {| state := sv1; device_ids := <[websocket := None]> ∅ |} =
            Ok {| state := sv2;
                  device_ids := <[websocket := Some dev]>
                                  (<[websocket := None]> ∅) |}) as Hstep2.
    { unfold step. cbn [device_ids state].
      by rewrite lookup_insert_eq, Hsv2. }
    assert (step dumps (Receive websocket broken (Some session_id) now2 now2'
                          (Json ending))
              {| state := sv2;
                 device_ids := <[websocket := Some dev]>
                                 (<[websocket := None]> ∅) |} =
            Ok {| state := sv3;
                  device_ids := <[websocket := Some dev]>
                                  (<[websocket := Some dev]>
                                     (<[websocket := None]> ∅)) |}) as Hstep3.
    { unfold step. cbn [device_ids state].
      by rewrite lookup_insert_eq, Hsv3. }
    cbn [serve]. change (step dumps (Connect websocket) initial)
      with (Ok {| state := sv1; device_ids := <[websocket := None]> ∅ |}).
    cbn [mbind py_mbind py_bind]. rewrite Hstep2.
    cbn [mbind py_mbind py_bind]. by rewrite Hstep3.
  - cbn [state].
    apply get_stats_all_zero; rewrite Hrows3; [done |].
    constructor; [exact Hsm | constructor].
Qed.

Lemma get_stats_fails_on_small_rates_witness :
  ∃ w sm,
    serve (λ _, "json")
      [Connect 1;
       Receive 1 (λ _, false) None 0 1
         (Json {| event_type := Some "heartbeat";
                  event_device_id := Some "A";
                  event_bpm := Some (1 # 1000)%Q;
                  event_ir := Some 60000%Z;
                  event_ac := Some 5%Z |});
       Receive 1 (λ _, false) (Some 1%Z) 2000000 2000001
         (Json {| event_type := Some "session_end";
                  event_device_id := Some "A";
                  event_bpm := None; event_ir := None; event_ac := None |})]
      initial = Ok w ∧
    heartbeat_sessions (state w) = [(1%Z, sm)] ∧
    (avg_bpm sm == 0)%Q ∧
    get_stats (state w) = Raise StatisticsError.
Proof.
  apply (get_stats_fails_on_small_rates (λ _, "json") (λ _, false) 1 "A"
           (1 # 1000) 60000 5 1 0 1 2000000 2000001).
  - reflexivity.
  - reflexivity.
Defined.

(** X24: a [session_start] frame replaces whatever session the device had by
    an empty one started at the clock reading, without storing a row for the
    replaced session; the device is bound to the connection, and the sender
    gets a [session_started] reply unless the send fails. *)
Theorem session_start_frame_resets
    (dumps : payload → string) (broken : WebSocket → bool)
    (commit : option Z) (now now' : Z) (websocket : WebSocket)
    (device_id : option string) (json_data : event) (sv : server) :
  event_type json_data = Some "session_start" →
  ∃ sv',
    websocket_receive dumps broken commit now now' websocket device_id
      (Json json_data) sv =
      (sv', Some (default "ESP32_001" (event_device_id json_data))) ∧
    session_manager sv' !! default "ESP32_001" (event_device_id json_data) =
      Some {| start_time := now; bpm_values := []; ir_values := [];
              beat_count := 0; waveform_samples := [] |} ∧
    (∀ dev, dev ≠ default "ESP32_001" (event_device_id json_data) →
            session_manager sv' !! dev = session_manager sv !! dev) ∧
    heartbeat_sessions sv' = heartbeat_sessions sv ∧
    manager sv' = manager sv ∧
    network sv' =
      if broken websocket then network sv
      else network sv ++
           [(websocket,
             dumps (SessionStarted
                      (default "ESP32_001" (event_device_id json_data))
                      now'))].
Proof.
  intros Htype. unfold websocket_receive. rewrite Htype.
  rewrite decide_True by done.
  unfold try_send, send_text, with_sessions. simpl.
  destruct (broken websocket); eexists; (split; [reflexivity |]); simpl.
  all: split; [apply lookup_insert_eq |].
  all: split; [intros dev Hne; by rewrite lookup_insert_ne |].
  all: done.
Qed.

Lemma session_start_frame_resets_witness :
  ∃ sv',
    websocket_receive (λ _, "started") (λ _, false) None 8 9 1 None
      (Json {| event_type := Some "session_start"; event_device_id := None;
               event_bpm := None; event_ir := None; event_ac := None |})
      {| session_manager :=
           {[ "ESP32_001" :=
                session_of (0%Z, [{| beat_bpm := 61; beat_ir := 60000;
                                     beat_ac := 3; beat_time := 1 |}]) ]};
         manager := [1]; network := []; heartbeat_sessions := [] |}
      = (sv', Some "ESP32_001") ∧
    session_manager sv' !! "ESP32_001" =
      Some {| start_time := 8; bpm_values := []; ir_values := [];
              beat_count := 0; waveform_samples := [] |} ∧
    heartbeat_sessions sv' = [] ∧
    network sv' = [(1, "started")].
Proof.
  destruct (session_start_frame_resets
              (λ _, "started") (λ _, false) None 8 9 1 None
              {| event_type := Some "session_start"; event_device_id := None;
                 event_bpm := None; event_ir := None; event_ac := None |}
              {| session_manager :=
                   {[ "ESP32_001" :=
                        session_of (0%Z, [{| beat_bpm := 61; beat_ir := 60000;
                                             beat_ac := 3;
                                             beat_time := 1 |}]) ]};
                 manager := [1]; network := []; heartbeat_sessions := [] |}
              eq_refl)
    as (sv' & Hrun & Hfresh & _ & Hrows & _ & Hnet).
  exists sv'. split; [exact Hrun |]. split; [exact Hfresh |].
  split; [exact Hrows | exact Hnet].
Defined.

(** X25: a [get_session_info] frame changes neither the registry nor the
    connection list nor the table; when [get_session_info] returns, the
    sender gets a [session_info] reply with the live info if the device has
    a session and the send does not fail, and nothing is sent otherwise. *)
Theorem get_session_info_frame_read_only
    (dumps : payload → string) (broken : WebSocket → bool)
    (commit : option Z) (now now' : Z) (websocket : WebSocket)
    (device_id : option string) (json_data : event) (sv : server)
    (r : option session_info) :
  event_type json_data = Some "get_session_info" →
  SessionManager.get_session_info now
    (default "ESP32_001" (event_device_id json_data))
    (session_manager sv) = Ok r →
  ∃ sv',
    websocket_receive dumps broken commit now now' websocket device_id
      (Json json_data) sv =
      (sv', Some (default "ESP32_001" (event_device_id json_data))) ∧
    session_manager sv' = session_manager sv ∧
    manager sv' = manager sv ∧
    heartbeat_sessions sv' = heartbeat_sessions sv ∧
    network sv' =
      match r with
      | Some info =>
          if broken websocket then network sv
          else network sv ++ [(websocket, dumps (SessionInfo info))]
      | None => network sv
      end.
Proof.
  intros Htype Hinfo. unfold websocket_receive. rewrite Htype.
  rewrite !(decide_False (P := Some "get_session_info" = Some "session_start"))
    by discriminate.
  rewrite !(decide_False (P := Some "get_session_info" = Some "heartbeat"))
    by discriminate.
  rewrite !(decide_False (P := Some "get_session_info" = Some "session_end"))
    by discriminate.
  rewrite decide_True by done. rewrite Hinfo.
  destruct r as [info|].
  - unfold try_send, send_text. simpl.
    destruct (broken websocket); eexists; (split; [reflexivity |]); done.
  - eexists. split; [reflexivity |]. done.
Qed.

Lemma get_session_info_frame_read_only_witness :
  ∃ sv',
    websocket_receive (λ _, "info") (λ _, false) None 8 9 1 None
      (Json {| event_type := Some "get_session_info";
               event_device_id := Some "B";
               event_bpm := None; event_ir := None; event_ac := None |})
      (state initial) = (sv', Some "B") ∧
    session_manager sv' = ∅ ∧
    manager sv' = [] ∧
    heartbeat_sessions sv' = [] ∧
    network sv' = [].
Proof.
  apply (get_session_info_frame_read_only
           (λ _, "info") (λ _, false) None 8 9 1 None
           {| event_type := Some "get_session_info";
              event_device_id := Some "B";
              event_bpm := None; event_ir := None; event_ac := None |}
           (state initial) None).
  - reflexivity.
  - reflexivity.
Defined.
